(** * recall-ai: content normalisation and flash-card generation (core.py)

    A shallow embedding of [core.py]: the seven input processors, the
    factory that dispatches on the input tag, the flash-card generator and
    the service facade, followed by the properties of the specification
    that concern them.

    Python values are modelled as the program has them: a [str] is a
    sequence of Unicode code points, [str.split()] cuts at runs of Unicode
    white space, exceptions carry their class and their message, and the
    external collaborators (file system, vision model, Whisper, PyMuPDF,
    crawler, chat-completion service) are oracles of a [World] whose calls
    are recorded in a trace. *)

From Stdlib Require Import ZArith NArith List Bool Lia Ascii String DecimalString.
From stdpp Require Import base gmap strings list.

Set Warnings "-register-all".

Open Scope string_scope.
Open Scope list_scope.
Open Scope nat_scope.

(** ** Python strings *)

(** A Python [str]: a sequence of code points. *)
Definition pystr : Type := list N.

(** String literals of the source (all of them ASCII). *)
Definition py (s : string) : pystr :=
  N_of_ascii <$> list_ascii_of_string s.

(** [str(n)] for an [int]. *)
Definition str_of_nat (n : nat) : pystr :=
  py (NilZero.string_of_uint (Nat.to_uint n)).

Definition str_of_Z (z : Z) : pystr :=
  py (NilZero.string_of_int (Z.to_int z)).

(** [ch.isspace()]: CPython's [Py_UNICODE_ISSPACE], the characters at which
    [str.split()] without argument cuts. *)
Definition is_space (c : N) : bool :=
  (((9 <=? c) && (c <=? 13)) || ((28 <=? c) && (c <=? 32))
   || (c =? 133) || (c =? 160) || (c =? 5760)
   || ((8192 <=? c) && (c <=? 8202))
   || (c =? 8232) || (c =? 8233) || (c =? 8239) || (c =? 8287)
   || (c =? 12288))%N.

(** [s.split()]: [cur] is the word being read, most recent character
    first. Leading, trailing and repeated white space produce no empty
    word. *)
Fixpoint split_from (cur : pystr) (s : pystr) : list pystr :=
  match s with
  | [] => match cur with [] => [] | _ => [rev cur] end
  | c :: s' =>
      if is_space c
      then match cur with
           | [] => split_from [] s'
           | _ => rev cur :: split_from [] s'
           end
      else split_from (c :: cur) s'
  end.

Definition split (s : pystr) : list pystr := split_from [] s.

(** [sep.join(parts)]. *)
Fixpoint join (sep : pystr) (parts : list pystr) : pystr :=
  match parts with
  | [] => []
  | [p] => p
  | p :: ps => p ++ sep ++ join sep ps
  end.

(** [len(s.split())]. *)
Definition word_count (s : pystr) : nat := length (split s).

(** [s.startswith(p)] and [s.endswith(p)]. *)
Fixpoint startswith (s p : pystr) : bool :=
  match p, s with
  | [], _ => true
  | _ :: _, [] => false
  | a :: p', b :: s' => (a =? b)%N && startswith s' p'
  end.

Definition endswith (s p : pystr) : bool := startswith (rev s) (rev p).

(** Truth value of a [str]: [not s] holds of the empty string only. *)
Definition truthy (s : pystr) : bool :=
  match s with [] => false | _ => true end.

(** ** Exceptions and results *)

(** The exception classes that [core.py] and the library calls it makes can
    raise. *)
Inductive exc_class : Type :=
| ValueError
| AssertionError
| UnboundLocalError
| KeyError
| IndexError
| TypeError
| AttributeError
| RecursionError
| JSONDecodeError.

(** An exception object: its class and [str(e)]. *)
Record exn : Type := Exn { exn_class : exc_class; exn_msg : pystr }.

Inductive result (A : Type) : Type :=
| Ok (a : A)
| Raise (e : exn).
Arguments Ok {A} a.
Arguments Raise {A} e.

Definition is_ok {A} (r : result A) : bool :=
  match r with Ok _ => true | Raise _ => false end.

(** The messages of the source. *)
Definition msg_too_short : pystr :=
  py "Text input is too short. Please provide a longer text.".
Definition msg_too_long : pystr :=
  py "Text input is too long. Please provide a shorter text.".
Definition msg_not_english : pystr :=
  py "Audio input is not in English. Please provide an English audio file.".


(** A small error monad for library code that has no effect on the world. *)
Definition rbind {A B} (r : result A) (k : A -> result B) : result B :=
  match r with
  | Ok a => k a
  | Raise e => Raise e
  end.

(** ** [json.loads]

    The decoder follows CPython's scanner ([scan_once], [scanstring],
    [_parse_object], [_parse_array], [_match_number]) and its messages.
    Left out: the interpreter's limits on the nesting of a document and on
    the digits of an [int] literal.

    The value a JSON document decodes to: [None], [bool], [int], [float],
    [str], [list] and [dict]. A [float] keeps its lexeme (binary floating
    point is not modelled); a [dict] keeps its keys in insertion order. *)
Inductive pyjson : Type :=
| JNull
| JBool (b : bool)
| JInt (z : Z)
| JFloat (lexeme : pystr)
| JStr (s : pystr)
| JList (items : list pyjson)
| JDict (items : list (pystr * pyjson)).

(** [d[k] = v] on an insertion-ordered dict. *)
Fixpoint dict_set (d : list (pystr * pyjson)) (k : pystr) (v : pyjson)
  : list (pystr * pyjson) :=
  match d with
  | [] => [(k, v)]
  | (k', v') :: d' =>
      if bool_decide (k' = k) then (k', v) :: d'
      else (k', v') :: dict_set d' k v
  end.

(** [d.get(k)]. *)
Fixpoint dict_get (d : list (pystr * pyjson)) (k : pystr) : option pyjson :=
  match d with
  | [] => None
  | (k', v') :: d' => if bool_decide (k' = k) then Some v' else dict_get d' k
  end.

Module Json.

(** What the scanner can fail with: a [JSONDecodeError] with its message
    and position, or the interpreter's recursion guard. *)
Inductive scan_error : Type :=
| DecodeError (msg : string) (pos : nat)
| TooDeep.

Inductive scan (A : Type) : Type :=
| Scanned (a : A)
| ScanFail (e : scan_error).
Arguments Scanned {A} a.
Arguments ScanFail {A} e.

Definition sbind {A B} (m : scan A) (k : A -> scan B) : scan B :=
  match m with
  | Scanned a => k a
  | ScanFail e => ScanFail e
  end.

Notation "'scan!' p ':=' m 'in' k" :=
  (sbind m (fun p => k))
  (at level 10, p pattern, m at level 100, k at level 200).

Definition is_ws (c : N) : bool :=
  ((c =? 32) || (c =? 9) || (c =? 10) || (c =? 13))%N.

Definition is_digit (c : N) : bool := ((48 <=? c) && (c <=? 57))%N.

(** Skips white space; the position moves with the input. *)
Fixpoint skip_ws (idx : nat) (rest : pystr) : nat * pystr :=
  match rest with
  | c :: rest' => if is_ws c then skip_ws (S idx) rest' else (idx, rest)
  | [] => (idx, rest)
  end.

Definition hex_value (c : N) : option N :=
  (if (48 <=? c) && (c <=? 57) then Some (c - 48)
   else if (97 <=? c) && (c <=? 102) then Some (c - 87)
   else if (65 <=? c) && (c <=? 70) then Some (c - 55)
   else None)%N.

Definition hex4 (a b c d : N) : option N :=
  match hex_value a, hex_value b, hex_value c, hex_value d with
  | Some x, Some y, Some z, Some t => Some (((x * 16 + y) * 16 + z) * 16 + t)%N
  | _, _, _, _ => None
  end.

(** The one-character escapes of a JSON string. *)
Definition backslash (c : N) : option N :=
  (if c =? 34 then Some 34          (* quote *)
   else if c =? 92 then Some 92     (* backslash *)
   else if c =? 47 then Some 47     (* slash *)
   else if c =? 98 then Some 8      (* b: backspace *)
   else if c =? 102 then Some 12    (* f: form feed *)
   else if c =? 110 then Some 10    (* n: line feed *)
   else if c =? 114 then Some 13    (* r: carriage return *)
   else if c =? 116 then Some 9     (* t: tab *)
   else None)%N.

Definition is_high_surrogate (c : N) : bool := ((55296 <=? c) && (c <=? 56319))%N.
Definition is_low_surrogate (c : N) : bool := ((56320 <=? c) && (c <=? 57343))%N.
Definition join_surrogates (hi lo : N) : N :=
  (65536 + (((hi - 55296) * 1024) + (lo - 56320)))%N.

(** [scanstring]: reads a string body up to its closing quote. [begin] is
    the position of the opening quote, [idx] that of the head of [rest],
    [acc] the characters read so far, last first. *)
Fixpoint scanstring (begin idx : nat) (acc : pystr) (rest : pystr)
  : scan (pystr * nat * pystr) :=
  match rest with
  | [] => ScanFail (DecodeError "Unterminated string starting at" begin)
  | c :: rest1 =>
      if (c =? 34)%N then Scanned (rev acc, S idx, rest1)
      else if (c =? 92)%N then
        match rest1 with
        | [] => ScanFail (DecodeError "Unterminated string starting at" begin)
        | esc :: rest2 =>
            if (esc =? 117)%N then
              match rest2 with
              | h1 :: h2 :: h3 :: h4 :: ((_ :: _) as rest6) =>
                  match hex4 h1 h2 h3 h4 with
                  | None => ScanFail (DecodeError "Invalid \uXXXX escape" (S idx))
                  | Some u =>
                      match rest6 with
                      | b :: v :: g1 :: g2 :: g3 :: g4 :: ((_ :: _) as rest12) =>
                          if is_high_surrogate u && (b =? 92)%N && (v =? 117)%N then
                            match hex4 g1 g2 g3 g4 with
                            | None =>
                                ScanFail (DecodeError "Invalid \uXXXX escape" (idx + 7))
                            | Some u2 =>
                                if is_low_surrogate u2
                                then scanstring begin (idx + 12)
                                       (join_surrogates u u2 :: acc) rest12
                                else scanstring begin (idx + 6) (u :: acc) rest6
                            end
                          else scanstring begin (idx + 6) (u :: acc) rest6
                      | _ => scanstring begin (idx + 6) (u :: acc) rest6
                      end
                  end
              | _ => ScanFail (DecodeError "Invalid \uXXXX escape" (S idx))
              end
            else
              match backslash esc with
              | Some ch => scanstring begin (idx + 2) (ch :: acc) rest2
              | None => ScanFail (DecodeError "Invalid \escape" idx)
              end
        end
      else if (c <=? 31)%N then
        ScanFail (DecodeError "Invalid control character at" idx)
      else scanstring begin (S idx) (c :: acc) rest1
  end.

(** Reads the digits at the head of the input. *)
Fixpoint take_digits (rest : pystr) : pystr * pystr :=
  match rest with
  | c :: rest' =>
      if is_digit c
      then let '(ds, r) := take_digits rest' in (c :: ds, r)
      else ([], rest)
  | [] => ([], [])
  end.

Definition digits_value (ds : pystr) : Z :=
  fold_left (fun acc c => (acc * 10 + Z.of_N (c - 48))%Z) ds 0%Z.

(** The integer part of a number: [0], or a non-zero digit and more
    digits. *)
Definition match_integer (rest : pystr) : option (pystr * pystr) :=
  match rest with
  | c :: rest' =>
      if (c =? 48)%N then Some ([c], rest')
      else if is_digit c
           then let '(ds, r) := take_digits rest' in Some (c :: ds, r)
           else None
  | [] => None
  end.

(** The fraction: a dot followed by at least one digit, or nothing. *)
Definition match_frac (rest : pystr) : pystr * pystr :=
  match rest with
  | c :: rest' =>
      if (c =? 46)%N then
        match take_digits rest' with
        | ([], _) => ([], rest)
        | (ds, r) => (c :: ds, r)
        end
      else ([], rest)
  | [] => ([], rest)
  end.

(** The exponent: [e] or [E], an optional sign and at least one digit, or
    nothing. *)
Definition match_exp (rest : pystr) : pystr * pystr :=
  match rest with
  | e :: rest1 =>
      if ((e =? 101) || (e =? 69))%N then
        let '(sign, rest2) :=
          match rest1 with
          | s :: r => if ((s =? 45) || (s =? 43))%N then ([s], r) else ([], rest1)
          | [] => ([], rest1)
          end in
        match take_digits rest2 with
        | ([], _) => ([], rest)
        | (ds, r) => (e :: sign ++ ds, r)
        end
      else ([], rest)
  | [] => ([], rest)
  end.

(** The sign of a number. *)
Definition match_sign (rest : pystr) : bool * pystr :=
  match rest with
  | c :: r => if (c =? 45)%N then (true, r) else (false, rest)
  | [] => (false, rest)
  end.

(** [_match_number]: an [int] when the lexeme has neither fraction nor
    exponent, a [float] otherwise. *)
Definition match_number (idx : nat) (rest : pystr)
  : scan (pyjson * nat * pystr) :=
  let '(neg, rest1) := match_sign rest in
  match match_integer rest1 with
  | None => ScanFail (DecodeError "Expecting value" idx)
  | Some (int, rest2) =>
      let '(frac, rest3) := match_frac rest2 in
      let '(exp, rest4) := match_exp rest3 in
      let sign := if neg then [45%N] else [] in
      let lexeme := sign ++ int ++ frac ++ exp in
      let v :=
        match frac, exp with
        | [], [] =>
            JInt (if neg then - digits_value int else digits_value int)%Z
        | _, _ => JFloat lexeme
        end in
      Scanned (v, idx + length lexeme, rest4)
  end.

(** A constant spelled [word] at the head of the input. *)
Definition literal (word : string) (v : pyjson) (idx : nat) (rest : pystr)
  : option (pyjson * nat * pystr) :=
  let w := py word in
  if startswith rest w then Some (v, idx + length w, drop (length w) rest)
  else None.

(** Whether the input starts with the character [c]; the rest of the
    input if it does. *)
Definition expect (c : N) (rest : pystr) : option pystr :=
  match rest with
  | x :: rest' => if (x =? c)%N then Some rest' else None
  | [] => None
  end.

(** [scan_once] with the loops of [_parse_object] and [_parse_array].
    [fuel] bounds the depth of the calls. *)
Fixpoint scan_once (fuel : nat) (idx : nat) (rest : pystr)
  : scan (pyjson * nat * pystr) :=
  match fuel with
  | O => ScanFail TooDeep
  | S fuel' =>
      match rest with
      | [] => ScanFail (DecodeError "Expecting value" idx)
      | c :: rest' =>
          if (c =? 34)%N then
            scan! (s, i, r) := scanstring idx (S idx) [] rest' in
            Scanned (JStr s, i, r)
          else if (c =? 123)%N then
            let '(i, r) := skip_ws (S idx) rest' in
            match expect 125 r with
            | Some r' => Scanned (JDict [], S i, r')
            | None => parse_object fuel' [] i r
            end
          else if (c =? 91)%N then
            let '(i, r) := skip_ws (S idx) rest' in
            match expect 93 r with
            | Some r' => Scanned (JList [], S i, r')
            | None => parse_array fuel' [] i r
            end
          else
            match literal "null" JNull idx rest,
                  literal "true" (JBool true) idx rest,
                  literal "false" (JBool false) idx rest,
                  literal "NaN" (JFloat (py "NaN")) idx rest,
                  literal "Infinity" (JFloat (py "Infinity")) idx rest,
                  literal "-Infinity" (JFloat (py "-Infinity")) idx rest with
            | Some x, _, _, _, _, _
            | None, Some x, _, _, _, _
            | None, None, Some x, _, _, _
            | None, None, None, Some x, _, _
            | None, None, None, None, Some x, _
            | None, None, None, None, None, Some x => Scanned x
            | None, None, None, None, None, None => match_number idx rest
            end
      end
  end

with parse_object (fuel : nat) (d : list (pystr * pyjson))
       (idx : nat) (rest : pystr) : scan (pyjson * nat * pystr) :=
  match fuel with
  | O => ScanFail TooDeep
  | S fuel' =>
      match expect 34 rest with
      | Some rest1 =>
          scan! (key, i, r) := scanstring idx (S idx) [] rest1 in
          let '(i, r) := skip_ws i r in
          match expect 58 r with
          | Some r1 =>
              let '(i, r) := skip_ws (S i) r1 in
              scan! (val, i, r) := scan_once fuel' i r in
              let d := dict_set d key val in
              let '(i, r) := skip_ws i r in
              match expect 125 r, expect 44 r with
              | Some r', _ => Scanned (JDict d, S i, r')
              | None, Some r' =>
                  let '(i, r) := skip_ws (S i) r' in
                  parse_object fuel' d i r
              | None, None => ScanFail (DecodeError "Expecting ',' delimiter" i)
              end
          | None => ScanFail (DecodeError "Expecting ':' delimiter" i)
          end
      | None =>
          ScanFail
            (DecodeError "Expecting property name enclosed in double quotes" idx)
      end
  end

with parse_array (fuel : nat) (acc : list pyjson)
       (idx : nat) (rest : pystr) : scan (pyjson * nat * pystr) :=
  match fuel with
  | O => ScanFail TooDeep
  | S fuel' =>
      scan! (val, i, r) := scan_once fuel' idx rest in
      let '(i, r) := skip_ws i r in
      match expect 93 r, expect 44 r with
      | Some r', _ => Scanned (JList (rev (val :: acc)), S i, r')
      | None, Some r' =>
          let '(i, r) := skip_ws (S i) r' in
          parse_array fuel' (val :: acc) i r
      | None, None => ScanFail (DecodeError "Expecting ',' delimiter" i)
      end
  end.

(** [JSONDecodeError.__init__]: line and column of the position. *)
Definition lineno (doc : pystr) (pos : nat) : nat :=
  S (length (filter (fun c => c = 10%N) (take pos doc))).

Fixpoint last_newline (doc : pystr) (idx : nat) (found : option nat)
  : option nat :=
  match doc with
  | [] => found
  | c :: doc' =>
      last_newline doc' (S idx) (if (c =? 10)%N then Some idx else found)
  end.

Definition colno (doc : pystr) (pos : nat) : nat :=
  match last_newline (take pos doc) 0 None with
  | Some nl => pos - nl
  | None => S pos
  end.

Definition errmsg (msg : string) (doc : pystr) (pos : nat) : pystr :=
  py msg ++ py ": line " ++ str_of_nat (lineno doc pos)
  ++ py " column " ++ str_of_nat (colno doc pos)
  ++ py " (char " ++ str_of_nat pos ++ py ")".

Definition raise_scan_error {A} (doc : pystr) (e : scan_error) : result A :=
  match e with
  | DecodeError msg pos => Raise (Exn JSONDecodeError (errmsg msg doc pos))
  | TooDeep =>
      Raise (Exn RecursionError
               (py "maximum recursion depth exceeded while decoding a JSON document"))
  end.

(** [JSONDecoder.decode]: one value, white space around it, nothing
    after. *)
Definition decode (s : pystr) : result pyjson :=
  let '(i, r) := skip_ws 0 s in
  match scan_once (2 * length s + 2) i r with
  | ScanFail e => raise_scan_error s e
  | Scanned (obj, i, r) =>
      let '(i, r) := skip_ws i r in
      match r with
      | [] => Ok obj
      | _ => raise_scan_error s (DecodeError "Extra data" i)
      end
  end.

(** [json.loads(s)], where [s] is a [str] or [None]. *)
Definition loads (s : option pystr) : result pyjson :=
  match s with
  | None =>
      Raise (Exn TypeError
               (py "the JSON object must be str, bytes or bytearray, not NoneType"))
  | Some s =>
      if startswith s [65279%N]
      then raise_scan_error s
             (DecodeError "Unexpected UTF-8 BOM (decode using utf-8-sig)" 0)
      else decode s
  end.

End Json.

(** ** Pydantic models *)

(** The field types the models of [core.py] are declared with. *)
Inductive field_type : Type :=
| TStr
| TInt
| TOptional (t : field_type)
| TList (t : field_type)
| TModel (name : string) (fields : list (string * field_type)).

(** Whether a decoded JSON value has the shape of a model: every declared
    field is present with a value of its type (fields are declared without
    default, so all are required; keys that are not declared are allowed). *)
Fixpoint conforms (t : field_type) (v : pyjson) {struct t} : bool :=
  match t with
  | TStr => match v with JStr _ => true | _ => false end
  | TInt => match v with JInt _ => true | _ => false end
  | TOptional t' => match v with JNull => true | _ => conforms t' v end
  | TList t' =>
      match v with
      | JList items => forallb (conforms t') items
      | _ => false
      end
  | TModel _ fields =>
      match v with
      | JDict d =>
          (fix all_fields (fs : list (string * field_type)) : bool :=
             match fs with
             | [] => true
             | (k, t') :: fs' =>
                 match dict_get d (py k) with
                 | Some v' => conforms t' v'
                 | None => false
                 end && all_fields fs'
             end) fields
      | _ => false
      end
  end.

(** [class UserBio(BaseModel)]. *)
Record UserBio : Type := {
  name : pystr;
  age : Z;
  degree_name : pystr;
  degree_year : Z;
  course_name : pystr;
  interested_subjects : list pystr
}.

(** ** The outside world *)

(** A chat completion as far as the program reads it: the
    [message.content] of each of its [choices], [None] when a choice
    carries no text. *)
Definition completion : Type := list (option pystr).

(** [ChatCompletion.create] of the vision model: the instruction and the
    image as a data URL. *)
Record vision_request : Type := {
  vr_api_key : option pystr;
  vr_model : pystr;
  vr_text : pystr;
  vr_image_url : pystr
}.

Record chat_message : Type := { role : pystr; content : pystr }.

Record response_format : Type := { rf_type : pystr; rf_schema : field_type }.

(** [client.chat.completions.create]. *)
Record chat_request : Type := {
  cr_api_key : option pystr;
  cr_model : pystr;
  cr_response_format : option response_format;
  cr_messages : list chat_message
}.

(** [AsyncWebCrawler(config=BrowserConfig(..)).arun_many(urls, config)]. *)
Record crawl_request : Type := {
  cq_headless : bool;
  cq_cache_bypass : bool;
  cq_exclude_external_links : bool;
  cq_excluded_tags : list pystr;
  cq_exclude_social_media_links : bool;
  cq_stream : bool;
  cq_urls : list pystr
}.

(** What the crawler reports for one URL. *)
Record CrawlResult : Type := {
  success : bool;
  markdown : pystr;
  error : pystr
}.

(** The collaborators of the program. A call that returns is [Ok], a call
    that raises is [Raise]. [repr_user_bio] is the [repr] of the dict made
    of a [UserBio], as the interpreter formats it into the prompt. *)
Record World : Type := {
  os_path_exists : pystr -> bool;
  os_getenv : string -> option pystr;
  file_read : pystr -> result (list N);
  vision_create : vision_request -> result completion;
  whisper_transcribe : pystr -> result (gmap string pystr);
  pymupdf_open : pystr -> result (list pystr);
  crawler_arun_many : crawl_request -> result (list CrawlResult);
  chat_create : chat_request -> result completion;
  repr_user_bio : UserBio -> pystr
}.

(** The calls the program makes to its collaborators, in order. *)
Inductive event : Type :=
| EvFileRead (path : pystr)
| EvVision (req : vision_request)
| EvWhisperLoad (model : pystr)
| EvTranscribe (path : pystr)
| EvPdfOpen (path : pystr)
| EvCrawl (req : crawl_request)
| EvPrint (line : pystr)
| EvChat (req : chat_request).

(** ** Computations: a trace of calls and a result *)

Definition M (A : Type) : Type := list event * result A.

Definition ret {A} (a : A) : M A := ([], Ok a).

Definition raise {A} (e : exn) : M A := ([], Raise e).

Definition bind {A B} (m : M A) (k : A -> M B) : M B :=
  match m with
  | (tr, Ok a) => let '(tr', r) := k a in (tr ++ tr', r)
  | (tr, Raise e) => (tr, Raise e)
  end.

(** A call to a collaborator. *)
Definition call {A} (ev : event) (r : result A) : M A := ([ev], r).

(** A library function without effect on the world. *)
Definition pure {A} (r : result A) : M A := ([], r).

(** [try: m except Exception as e: h e]. *)
Definition try_except {A} (m : M A) (h : exn -> M A) : M A :=
  match m with
  | (tr, Ok a) => (tr, Ok a)
  | (tr, Raise e) => let '(tr', r) := h e in (tr ++ tr', r)
  end.

Notation "'let!' x ':=' m 'in' k" :=
  (bind m (fun x => k))
  (at level 10, x pattern, m at level 100, k at level 200).

(** [assert cond, msg]. *)
Definition py_assert (cond : bool) (msg : string) : M unit :=
  if cond then ret tt else raise (Exn AssertionError (py msg)).

(** [response.choices[0].message.content]. *)
Definition first_content (c : completion) : result (option pystr) :=
  match c !! 0 with
  | Some content => Ok content
  | None => Raise (Exn IndexError (py "list index out of range"))
  end.

(** The receiver of [text.split()], where [text] may be [None]: a method
    call on [None] raises [AttributeError]. *)
Definition split_receiver (text : option pystr) : result pystr :=
  match text with
  | Some s => Ok s
  | None =>
      Raise (Exn AttributeError
               (py "'NoneType' object has no attribute 'split'"))
  end.

(** [d[key]] on a dict with [str] keys. *)
Definition getitem (d : gmap string pystr) (key : string) : result pystr :=
  match d !! key with
  | Some v => Ok v
  | None => Raise (Exn KeyError (py "'" ++ py key ++ py "'"))
  end.

(** [base64.b64encode(data).decode("utf-8")]. *)
Definition b64_alphabet : pystr :=
  py "ABCDEFGHIJKLMNOPQRSTUVWXYZabcdefghijklmnopqrstuvwxyz0123456789+/".

Definition b64_char (i : N) : N := nth (N.to_nat i) b64_alphabet 0%N.

Fixpoint b64encode (data : list N) : pystr :=
  match data with
  | [] => []
  | [a] =>
      [b64_char (a / 4); b64_char ((a mod 4) * 16); 61; 61]%N
  | [a; b] =>
      [b64_char (a / 4); b64_char ((a mod 4) * 16 + b / 16);
       b64_char ((b mod 16) * 4); 61]%N
  | a :: b :: c :: rest =>
      [b64_char (a / 4); b64_char ((a mod 4) * 16 + b / 16);
       b64_char ((b mod 16) * 4 + c / 64); b64_char (c mod 64)]%N
      ++ b64encode rest
  end.

(** [Fireworks(api_key = os.getenv("FIREWORKS_API_KEY"))]. *)
Record Fireworks : Type := { api_key : option pystr }.

Definition Fireworks_client (w : World) : Fireworks :=
  {| api_key := os_getenv w "FIREWORKS_API_KEY" |}.

(** ** The processors *)

Module ProcessTextInput.

Record t : Type := { text : pystr }.

Definition __init__ (text : pystr) : M t :=
  let! _ := py_assert (truthy text) "Text input cannot be empty." in
  ret {| text := text |}.

Definition _process (self : t) (min_length max_length : Z) : M pystr :=
  if (Z.of_nat (length (split (text self))) <? min_length)%Z then
    raise (Exn ValueError msg_too_short)
  else if (Z.of_nat (length (split (text self))) >? max_length)%Z then
    raise (Exn ValueError msg_too_long)
  else ret (text self).

End ProcessTextInput.

Module ProcessImageInput.

Record t : Type := { image_path : pystr; extension : option pystr }.

Definition __init__ (w : World) (image_path : pystr) : M t :=
  let! _ := py_assert (os_path_exists w image_path)
              "Image path does not exist." in
  let! _ := py_assert (endswith image_path (py ".png")
                       || endswith image_path (py ".jpeg"))
              "Image path must be a .png, or .jpeg file." in
  ret {| image_path := image_path;
         extension :=
           if endswith image_path (py ".png") then Some (py "png")
           else if endswith image_path (py ".jpeg") then Some (py "jpeg")
           else None |}.

Definition encode_image (w : World) (image_path : pystr) : M pystr :=
  let! data := call (EvFileRead image_path) (file_read w image_path) in
  ret (b64encode data).

(** The request sent to the vision model. *)
Definition request (w : World) (base64_image : pystr) : vision_request :=
  {| vr_api_key := os_getenv w "FIREWORKS_API_KEY";
     vr_model := py "accounts/fireworks/models/phi-3-vision-128k-instruct";
     vr_text := py "Analyze the text in the image and write it as it is. output only the text and nothing else.";
     vr_image_url := py "data:image/jpeg;base64," ++ base64_image |}.

(** The [model] argument is accepted and ignored, as in the source. *)
Definition _process (w : World) (self : t) (model : pystr) : M pystr :=
  let! base64_image := encode_image w (image_path self) in
  let req := request w base64_image in
  let! response := call (EvVision req) (vision_create w req) in
  let! text := pure (first_content response) in
  let! text := pure (split_receiver text) in
  if length (split text) <? 10 then raise (Exn ValueError msg_too_short)
  else ret text.

End ProcessImageInput.

Module ProcessAudioInput.

(** [client] is the Whisper model loaded by the constructor. *)
Record t : Type := { audio_path : pystr; client : pystr }.

Definition __init__ (w : World) (audio_path : pystr) : M t :=
  let! _ := py_assert (os_path_exists w audio_path)
              "Audio path does not exist." in
  let! _ := py_assert (endswith audio_path (py ".mp3")
                       || endswith audio_path (py ".wav"))
              "Audio path must be a .mp3, or .wav file." in
  let! client := call (EvWhisperLoad (py "base")) (Ok (py "base")) in
  ret {| audio_path := audio_path; client := client |}.

Definition _process (w : World) (self : t) : M pystr :=
  let! transcript :=
    call (EvTranscribe (audio_path self))
      (whisper_transcribe w (audio_path self)) in
  let! text := pure (getitem transcript "text") in
  if length (split text) <? 10 then raise (Exn ValueError msg_too_short)
  else
    let! language := pure (getitem transcript "language") in
    if negb (bool_decide (language = py "en"))
    then raise (Exn ValueError msg_not_english)
    else ret text.

End ProcessAudioInput.

Module ProcessPDF.

Record t : Type := { pdf_path : pystr }.

Definition msg_unbound_combined_text : pystr :=
  py "cannot access local variable 'combined_text' where it is not associated with a value".

Definition __init__ (w : World) (pdf_path : pystr) : M t :=
  let! _ := py_assert (os_path_exists w pdf_path)
              "PDF path does not exist." in
  let! _ := py_assert (endswith pdf_path (py ".pdf"))
              "PDF path must be a .pdf file." in
  ret {| pdf_path := pdf_path |}.

(** The two checks on the pages read from the document. The local
    variable [combined_text] is bound in the second branch only: reading
    it unbound raises [UnboundLocalError].

    [get_text()] gives well-formed text, on which encoding to UTF-8 and
    decoding back is the identity; the two conversions are left out. *)
Definition check_pages (page_content : list pystr) : M pystr :=
  let! _ :=
    match page_content with
    | [page] =>
        if length (split page) <? 10
        then raise (Exn ValueError msg_too_short)
        else ret tt
    | _ => ret tt
    end in
  let combined_text : option pystr :=
    if 1 <? length page_content then
      let combined_text := join [] page_content in
      if 4000 <? length (split combined_text)
      then Some (join (py " ") (take 4000 (split combined_text)))
      else Some combined_text
    else None in
  match combined_text with
  | Some combined_text => ret combined_text
  | None =>
      raise (Exn UnboundLocalError msg_unbound_combined_text)
  end.

Definition _process (w : World) (self : t) : M pystr :=
  let! page_content :=
    call (EvPdfOpen (pdf_path self)) (pymupdf_open w (pdf_path self)) in
  check_pages page_content.

End ProcessPDF.

Module ProcessLink.

Record t : Type := { link : pystr }.

Definition __init__ (link : pystr) : M t :=
  let! _ := py_assert (startswith link (py "http"))
              "Link must start with http." in
  ret {| link := link |}.

(** The crawl of the one link: fresh, headless, without header, footer,
    navigation and forms, without external or social-media links. *)
Definition request (self : t) : crawl_request :=
  {| cq_headless := true;
     cq_cache_bypass := true;
     cq_exclude_external_links := true;
     cq_excluded_tags := [py "header"; py "footer"; py "nav"; py "form"];
     cq_exclude_social_media_links := true;
     cq_stream := false;
     cq_urls := [link self] |}.

(** The [return] stands in the body of the loop over the results: the
    function returns after the first of them, and falls off its end,
    returning [None], when there is none. *)
Definition _process (w : World) (self : t) : M (option (list pystr)) :=
  let req := request self in
  let! result := call (EvCrawl req) (crawler_arun_many w req) in
  let content : list pystr := [] in
  match result with
  | res :: _ =>
      let! content :=
        if success res then ret (content ++ [markdown res])
        else
          let! _ := call (EvPrint (py "Error: " ++ error res)) (Ok tt) in
          ret content in
      ret (Some content)
  | [] => ret None
  end.

End ProcessLink.

Definition default_model : pystr := py "accounts/fireworks/models/deepseek-v3".

Module ProcessTopic.

Record t : Type := { topic : pystr; client : Fireworks }.

Definition __init__ (w : World) (topic : pystr) : M t :=
  let! _ := py_assert (truthy topic) "Topic cannot be empty." in
  ret {| topic := topic; client := Fireworks_client w |}.

Definition request (self : t) (model : pystr) : chat_request :=
  {| cr_api_key := api_key (client self);
     cr_model := model;
     cr_response_format := None;
     cr_messages :=
       [{| role := py "user";
           content :=
             py "Write a 100-200 words essay on the topic '"
             ++ topic self
             ++ py "'. Make sure to describe various aspects of the topic. Only output the text, do not include any other information, explanation, or comments." |}] |}.

Definition _process (w : World) (self : t) (model : pystr) : M pystr :=
  let req := request self model in
  let! response := call (EvChat req) (chat_create w req) in
  let! text := pure (first_content response) in
  let! text := pure (split_receiver text) in
  if length (split text) <? 10 then raise (Exn ValueError msg_too_short)
  else if 2000 <? length (split text) then raise (Exn ValueError msg_too_long)
  else ret text.

End ProcessTopic.

Module ProcessUserBackground.

(** [user_bio] is the dict that [UserBio.dict()] makes of the model; the
    prompt embeds its [repr]. *)
Record t : Type := { user_bio : UserBio; client : Fireworks }.

Definition __init__ (w : World) (user_bio : UserBio) : M t :=
  ret {| user_bio := user_bio; client := Fireworks_client w |}.

Definition request (w : World) (self : t) (model : pystr) : chat_request :=
  {| cr_api_key := api_key (client self);
     cr_model := model;
     cr_response_format := None;
     cr_messages :=
       [{| role := py "user";
           content :=
             py "Based on the following user bio, generate some study content for this user. If there are multiple subjects, write the core principals of each for user's education level. Do not exceed 1000 words of total. "
             ++ [10; 10]%N ++ py " BIO: "
             ++ repr_user_bio w (user_bio self)
             ++ py ". Only output the text, do not include any other information, explanation, or comments." |}] |}.

Definition _process (w : World) (self : t) (model : pystr) : M pystr :=
  let req := request w self model in
  let! response := call (EvChat req) (chat_create w req) in
  let! text := pure (first_content response) in
  let! text := pure (split_receiver text) in
  if length (split text) <? 10 then raise (Exn ValueError msg_too_short)
  else if 2000 <? length (split text) then raise (Exn ValueError msg_too_long)
  else ret text.

End ProcessUserBackground.

(** ** The flash-card generator *)

Module FlashCardGenerator.

(** The lines of a text, joined by line feeds. *)
Definition lines (ls : list string) : pystr := join [10%N] (py <$> ls).

(** [DEFAULT_PROMPT], cut at its three placeholders. *)
Definition DEFAULT_PROMPT_head : pystr :=
  lines
    ["";
     "        You are an expert educational flash card creator. Your task is to generate high-quality, educational flash cards based on the content provided. ";
     "        The flash cards should be concise, clear, and cover the most important concepts from the content.";
     "";
     "        INPUT CONTENT:";
     "        "].

Definition DEFAULT_PROMPT_count : pystr :=
  lines
    ["";
     "        ";
     "        Number of Cards: Specified->"].

Definition DEFAULT_PROMPT_instructions : pystr :=
  lines
    [" (or 5 if not specified)";
     "        ";
     "        INSTRUCTIONS: ";
     "        1. Analyze the provided content thoroughly, identifying key concepts, facts, definitions, formulas, and relationships.";
     "        2. Create "].

Definition DEFAULT_PROMPT_tail : pystr :=
  lines
    [" flash cards that:";
     "            - Cover the most important information in the content";
     "            - Progress from fundamental to more advanced concepts";
     "            - Are clear, concise, and self-contained";
     "            - Include a mix of factual recall, conceptual understanding, and application questions";
     "            - Are tailored to the specified user demographics when provided";
     "        3. For each flash card, include:";
     "            - A clear, specific question on the front";
     "            - A concise but complete answer on the back";
     "            - A category/topic label";
     "            - An importance rating (1-5, with 5 being most important)";
     "        4. Ensure questions are formulated in a way that tests understanding, not just memorization.";
     "        5. For mathematical or scientific content, include relevant formulas, equations, or processes.";
     "        6. For historical or procedural content, focus on key events, sequences, or steps.";
     "        7. For definition-based content, focus on precise terminology and meanings.";
     "        8. For content with multiple themes, ensure balanced coverage across important topics.";
     "";
     "        OUTPUT FORMAT:";
     "        Return the flash cards as a JSON object strictly following this Pydantic model definition:";
     "        title, subject, cards (list of card objects), total_cards, difficulty level ";
     "    "].
(** [DEFAULT_PROMPT.format(content=content, num_cards=num_cards)]. *)
Definition DEFAULT_PROMPT_format (content : pystr) (num_cards : Z) : pystr :=
  DEFAULT_PROMPT_head ++ content
  ++ DEFAULT_PROMPT_count ++ str_of_Z num_cards
  ++ DEFAULT_PROMPT_instructions ++ str_of_Z num_cards
  ++ DEFAULT_PROMPT_tail.

(** The output schemas declared in [_generate]. *)
Definition FlashCard : field_type :=
  TModel "FlashCard"
    [("question", TStr); ("answer", TStr);
     ("category", TOptional TStr); ("importance", TInt)].

Definition FlashCardSet : field_type :=
  TModel "FlashCardSet"
    [("title", TStr); ("subject", TStr); ("cards", TList FlashCard);
     ("total_cards", TInt); ("difficulty_level", TStr)].

Record t : Type := { num_cards : Z; client : Fireworks }.

Definition __init__ (w : World) (num_cards : Z) : M t :=
  ret {| num_cards := num_cards; client := Fireworks_client w |}.

(** The request [_generate] sends. *)
Definition request (self : t) (content model : pystr) : chat_request :=
  {| cr_api_key := api_key (client self);
     cr_model := model;
     cr_response_format :=
       Some {| rf_type := py "json_object"; rf_schema := FlashCardSet |};
     cr_messages :=
       [{| role := py "system";
           content := py "You are a flash cards generator for educational purposes." |};
        {| role := py "user";
           content := DEFAULT_PROMPT_format content (num_cards self) |}] |}.

(** The message that wraps the error [e] of the [try] block. *)
Definition msg_failed_to_parse (e : exn) : pystr :=
  py "Failed to parse response: " ++ exn_msg e.

(** The [try] block: read the text of the first choice and decode it. *)
Definition parse_response (completion : completion) : M pyjson :=
  try_except
    (let! generated_text := pure (first_content completion) in
     pure (Json.loads generated_text))
    (fun e =>
       raise (Exn ValueError (msg_failed_to_parse e))).

Definition _generate (w : World) (self : t) (content model : pystr)
  : M pyjson :=
  let req := request self content model in
  let! completion := call (EvChat req) (chat_create w req) in
  let! response := parse_response completion in
  ret response.

End FlashCardGenerator.

(** ** The factory *)

(** A value passed for [user_bio]: a [UserBio] or anything else. *)
Inductive pyarg : Type :=
| ArgUserBio (b : UserBio)
| ArgOther.

(** The keyword arguments of [create_processor], each present or not. *)
Record kwargs : Type := {
  kw_text : option pystr;
  kw_image_path : option pystr;
  kw_audio_path : option pystr;
  kw_pdf_path : option pystr;
  kw_link : option pystr;
  kw_topic : option pystr;
  kw_user_bio : option pyarg
}.

(** The processor objects the factory makes. *)
Inductive processor : Type :=
| PText (p : ProcessTextInput.t)
| PImage (p : ProcessImageInput.t)
| PAudio (p : ProcessAudioInput.t)
| PPDF (p : ProcessPDF.t)
| PLink (p : ProcessLink.t)
| PTopic (p : ProcessTopic.t)
| PUserBackground (p : ProcessUserBackground.t).

Module ContentProcessorFactory.

Definition msg_unknown_input_type (input_type : pystr) : pystr :=
  py "Unknown input type: " ++ input_type.

Definition create_processor (w : World) (input_type : pystr) (kw : kwargs)
  : M processor :=
  if bool_decide (input_type = py "text") then
    let! p := ProcessTextInput.__init__ (default [] (kw_text kw)) in
    ret (PText p)
  else if bool_decide (input_type = py "image") then
    let! p := ProcessImageInput.__init__ w (default [] (kw_image_path kw)) in
    ret (PImage p)
  else if bool_decide (input_type = py "audio") then
    let! p := ProcessAudioInput.__init__ w (default [] (kw_audio_path kw)) in
    ret (PAudio p)
  else if bool_decide (input_type = py "pdf") then
    let! p := ProcessPDF.__init__ w (default [] (kw_pdf_path kw)) in
    ret (PPDF p)
  else if bool_decide (input_type = py "link") then
    let! p := ProcessLink.__init__ (default [] (kw_link kw)) in
    ret (PLink p)
  else if bool_decide (input_type = py "topic") then
    let! p := ProcessTopic.__init__ w (default [] (kw_topic kw)) in
    ret (PTopic p)
  else if bool_decide (input_type = py "user_bio") then
    match kw_user_bio kw with
    | Some (ArgUserBio user_bio) =>
        let! p := ProcessUserBackground.__init__ w user_bio in
        ret (PUserBackground p)
    | _ =>
        raise (Exn ValueError (py "user_bio must be an instance of UserBio"))
    end
  else
    raise (Exn ValueError (msg_unknown_input_type input_type)).

(** [processor._process()], every argument at its default. *)
Definition sync_process (w : World) (p : processor) : M pystr :=
  match p with
  | PText p => ProcessTextInput._process p 30 2000
  | PImage p => ProcessImageInput._process w p (py "gpt-4o-mini")
  | PAudio p => ProcessAudioInput._process w p
  | PPDF p => ProcessPDF._process w p
  | PTopic p => ProcessTopic._process w p default_model
  | PUserBackground p => ProcessUserBackground._process w p default_model
  | PLink _ =>
      (* not reached: the factory makes a [ProcessLink] for [link] only *)
      raise (Exn TypeError (py "coroutine was never awaited"))
  end.

Definition process_content (w : World) (input_type : pystr) (kw : kwargs)
  : M pystr :=
  let! processor := create_processor w input_type kw in
  if bool_decide (input_type = py "link") then
    match processor with
    | PLink p =>
        let! content := ProcessLink._process w p in
        ret (match content with
             | Some ((_ :: _) as content) => join [10; 10]%N content
             | _ => []
             end)
    | _ =>
        (* not reached: the factory makes a [ProcessLink] for [link] *)
        raise (Exn TypeError (py "object str can't be used in 'await' expression"))
    end
  else sync_process w processor.

End ContentProcessorFactory.

(** ** The service facade *)

Module FlashCardService.

Record t : Type := { generator : FlashCardGenerator.t }.

Definition __init__ (w : World) (num_cards : Z) : M t :=
  let! generator := FlashCardGenerator.__init__ w num_cards in
  ret {| generator := generator |}.

(** The message raised when nothing was extracted. *)
Definition msg_no_content (input_type : pystr) : pystr :=
  py "Failed to process " ++ input_type
  ++ py " input or no content was extracted".

Definition generate_from_input (w : World) (self : t)
    (input_type : pystr) (kw : kwargs) : M pyjson :=
  let! content :=
    ContentProcessorFactory.process_content w input_type kw in
  if negb (truthy content) then
    raise (Exn ValueError (msg_no_content input_type))
  else FlashCardGenerator._generate w (generator self) content default_model.

End FlashCardService.

(** ** Vocabulary of the statements *)

(** A text free of white space, and a word: non-empty and free of white
    space. *)
Definition no_space (w : pystr) : Prop :=
  forallb (fun c => negb (is_space c)) w = true.

Definition is_word (w : pystr) : Prop := w <> [] /\ no_space w.

(** The input types the docstring of [generate_from_input] lists. *)
Definition input_kinds : list pystr :=
  [py "text"; py "image"; py "audio"; py "pdf"; py "link"; py "topic";
   py "user_bio"].

(** *** Extraction results

    What the collaborator of a strategy answered: the text of the first
    choice of the completion, or the transcript with its text. *)

Definition image_result (w : World) (self : ProcessImageInput.t)
    (text : pystr) : Prop :=
  exists data rest,
    file_read w (ProcessImageInput.image_path self) = Ok data
    /\ vision_create w (ProcessImageInput.request w (b64encode data))
       = Ok (Some text :: rest).

Definition topic_result (w : World) (self : ProcessTopic.t) (model : pystr)
    (text : pystr) : Prop :=
  exists rest,
    chat_create w (ProcessTopic.request self model) = Ok (Some text :: rest).

Definition user_bio_result (w : World) (self : ProcessUserBackground.t)
    (model : pystr) (text : pystr) : Prop :=
  exists rest,
    chat_create w (ProcessUserBackground.request w self model)
    = Ok (Some text :: rest).

Definition audio_result (w : World) (self : ProcessAudioInput.t)
    (transcript : gmap string pystr) (text : pystr) : Prop :=
  whisper_transcribe w (ProcessAudioInput.audio_path self) = Ok transcript
  /\ transcript !! "text" = Some text.

(** *** Generation *)

(** A call that generates cards: the request of some
    [FlashCardGenerator._generate]. *)
Definition generation_call (ev : event) : Prop :=
  exists self content model,
    ev = EvChat (FlashCardGenerator.request self content model).

(** A computation that generates no card. *)
Definition silent {A} (m : M A) : Prop :=
  Forall (fun ev => ~ generation_call ev) (fst m).

(** The response is a JSON document for [v]: its first choice carries a
    text that [json.loads] decodes to [v]. *)
Definition decodes_to (response : completion) (v : pyjson) : Prop :=
  exists text,
    response !! 0 = Some (Some text) /\ Json.loads (Some text) = Ok v.

(** [v[key]] on a decoded object. *)
Definition getfield (v : pyjson) (key : string) : option pyjson :=
  match v with
  | JDict d => dict_get d (py key)
  | _ => None
  end.

(** A scan that does not run out of fuel and, when it succeeds, leaves at
    most [n] characters of the input. *)
Definition scan_leaves {A} (n : nat) (res : Json.scan (A * nat * pystr))
  : Prop :=
  match res with
  | Json.Scanned (_, _, r) => length r <= n
  | Json.ScanFail Json.TooDeep => False
  | Json.ScanFail (Json.DecodeError _ _) => True
  end.

(** ** Inputs used as examples *)

(** [n] copies of the word [w], each followed by a space. *)
Definition words_of (w : string) (n : nat) : pystr :=
  concat (repeat (py w ++ py " ") n).

Definition ten_words : pystr :=
  py "one two three four five six seven eight nine ten".

Definition notes : pystr := words_of "group" 30.

(** JSON text written with apostrophes where the document has double
    quotes. *)
Definition json_text (s : string) : pystr :=
  (fun c => if (c =? 39)%N then 34%N else c) <$> py s.

(** A well-shaped set that announces three cards and carries none. *)
Definition three_announced : pystr :=
  json_text
    "{'title': 'Algebra', 'subject': 'Mathematics', 'cards': [], 'total_cards': 3, 'difficulty_level': 'Beginner'}".

(** A world in which nothing exists and every collaborator gives an empty
    answer. *)
Definition quiet_world : World :=
  {| os_path_exists := fun _ => false;
     os_getenv := fun _ => None;
     file_read := fun _ => Ok [];
     vision_create := fun _ => Ok [];
     whisper_transcribe := fun _ => Ok ∅;
     pymupdf_open := fun _ => Ok [];
     crawler_arun_many := fun _ => Ok [];
     chat_create := fun _ => Ok [];
     repr_user_bio := fun _ => [] |}.

(** A world in which every path exists and the collaborators give the
    answers stated: the pages of the document, the transcript of the
    recording, the results of the crawl, the completion of the vision
    model and the completion of the chat model. *)
Definition example_world (pages : list pystr) (transcript : gmap string pystr)
    (crawled : list CrawlResult) (seen : completion) (chat : completion)
  : World :=
  {| os_path_exists := fun _ => true;
     os_getenv := fun _ => Some (py "key");
     file_read := fun _ => Ok [137; 80; 78; 71]%N;
     vision_create := fun _ => Ok seen;
     whisper_transcribe := fun _ => Ok transcript;
     pymupdf_open := fun _ => Ok pages;
     crawler_arun_many := fun _ => Ok crawled;
     chat_create := fun _ => Ok chat;
     repr_user_bio := fun _ => py "{}" |}.

Definition pdf_world (pages : list pystr) : World :=
  example_world pages ∅ [] [] [].

Definition audio_world (transcript : gmap string pystr) : World :=
  example_world [] transcript [] [] [].

Definition crawl_world (crawled : list CrawlResult) : World :=
  example_world [] ∅ crawled [] [].

Definition vision_world (seen : completion) : World :=
  example_world [] ∅ [] seen [].

Definition chat_world (chat : completion) : World :=
  example_world [] ∅ [] [] chat.

(** Keyword arguments. *)
Definition no_kwargs : kwargs :=
  {| kw_text := None; kw_image_path := None; kw_audio_path := None;
     kw_pdf_path := None; kw_link := None; kw_topic := None;
     kw_user_bio := None |}.

Definition pdf_kwargs : kwargs :=
  {| kw_text := None; kw_image_path := None; kw_audio_path := None;
     kw_pdf_path := Some (py "notes.pdf"); kw_link := None; kw_topic := None;
     kw_user_bio := None |}.

Definition link_kwargs (link : pystr) : kwargs :=
  {| kw_text := None; kw_image_path := None; kw_audio_path := None;
     kw_pdf_path := None; kw_link := Some link; kw_topic := None;
     kw_user_bio := None |}.

(** Processors and the service. *)
Definition notes_pdf : ProcessPDF.t :=
  {| ProcessPDF.pdf_path := py "notes.pdf" |}.

Definition lecture : ProcessAudioInput.t :=
  {| ProcessAudioInput.audio_path := py "lecture.mp3";
     ProcessAudioInput.client := py "base" |}.

Definition scan_png : ProcessImageInput.t :=
  {| ProcessImageInput.image_path := py "scan.png";
     ProcessImageInput.extension := Some (py "png") |}.

Definition algebra (w : World) : ProcessTopic.t :=
  {| ProcessTopic.topic := py "algebra";
     ProcessTopic.client := Fireworks_client w |}.

Definition student (w : World) : ProcessUserBackground.t :=
  {| ProcessUserBackground.user_bio :=
       {| name := py "Ada"; age := 20; degree_name := py "BSc";
          degree_year := 2; course_name := py "Mathematics";
          interested_subjects := [py "algebra"; py "logic"] |};
     ProcessUserBackground.client := Fireworks_client w |}.

Definition five_cards (w : World) : FlashCardService.t :=
  {| FlashCardService.generator :=
       {| FlashCardGenerator.num_cards := 5;
          FlashCardGenerator.client := Fireworks_client w |} |}.

(** A transcript with its text and its detected language. *)
Definition transcript_of (text language : pystr) : gmap string pystr :=
  <["text" := text]> (<["language" := language]> ∅).

(** The report of a crawl that failed. *)
Definition failed_crawl : CrawlResult :=
  {| success := false; markdown := []; error := py "timeout" |}.


(** ** Vocabulary of the further properties *)

(** The input type a processor object serves. *)
Definition processor_tag (p : processor) : pystr :=
  match p with
  | PText _ => py "text"
  | PImage _ => py "image"
  | PAudio _ => py "audio"
  | PPDF _ => py "pdf"
  | PLink _ => py "link"
  | PTopic _ => py "topic"
  | PUserBackground _ => py "user_bio"
  end.

(** The word counts a processor lets through: a lower bound and, where
    there is one, an upper bound. *)
Definition within_bounds (p : processor) (text : pystr) : Prop :=
  match p with
  | PText _ => 30 <= word_count text <= 2000
  | PImage _ | PAudio _ => 10 <= word_count text
  | PTopic _ | PUserBackground _ => 10 <= word_count text <= 2000
  | PPDF _ => word_count text <= 4000
  | PLink _ => True
  end.

(** Keyword arguments of the examples. *)
Definition text_kwargs (text : pystr) : kwargs :=
  {| kw_text := Some text; kw_image_path := None; kw_audio_path := None;
     kw_pdf_path := None; kw_link := None; kw_topic := None;
     kw_user_bio := None |}.

Definition image_kwargs (path : pystr) : kwargs :=
  {| kw_text := None; kw_image_path := Some path; kw_audio_path := None;
     kw_pdf_path := None; kw_link := None; kw_topic := None;
     kw_user_bio := None |}.

Definition user_bio_kwargs (arg : pyarg) : kwargs :=
  {| kw_text := None; kw_image_path := None; kw_audio_path := None;
     kw_pdf_path := None; kw_link := None; kw_topic := None;
     kw_user_bio := Some arg |}.

(** The report of a crawl that succeeded. *)
Definition crawled_page : CrawlResult :=
  {| success := true; markdown := py "# Groups"; error := [] |}.

Definition audio_kwargs (path : pystr) : kwargs :=
  {| kw_text := None; kw_image_path := None; kw_audio_path := Some path;
     kw_pdf_path := None; kw_link := None; kw_topic := None;
     kw_user_bio := None |}.

Definition topic_kwargs (topic : pystr) : kwargs :=
  {| kw_text := None; kw_image_path := None; kw_audio_path := None;
     kw_pdf_path := None; kw_link := None; kw_topic := Some topic;
     kw_user_bio := None |}.

(** A world whose crawler finds the page and whose chat model answers
    [chat]. *)
Definition crawl_chat_world (chat : completion) : World :=
  example_world [] ∅ [crawled_page] [] chat.

(** ** The terminal application [app.py]

    Of the application, the parts that compute: the subjects that
    [get_user_bio] reads from one answer, and [display_flash_cards], which
    walks through the set that the service returned. The console is a
    collaborator: what is printed is recorded with the values that the
    format strings interpolate, not rendered. *)

Module app.

(** [s.split(sep)] for a separator of one character: the pieces between
    the separators, the empty ones included. [cur] is the piece being
    read, last character first. *)
Fixpoint split_on (sep : N) (cur : pystr) (s : pystr) : list pystr :=
  match s with
  | [] => [rev cur]
  | c :: s' =>
      if (c =? sep)%N then rev cur :: split_on sep [] s'
      else split_on sep (c :: cur) s'
  end.

(** [s.lstrip()] and [s.strip()]. *)
Fixpoint lstrip (s : pystr) : pystr :=
  match s with
  | c :: s' => if is_space c then lstrip s' else s
  | [] => []
  end.

Definition strip (s : pystr) : pystr := rev (lstrip (rev (lstrip s))).

(** The subjects of [get_user_bio]:
    [[subj.strip() for subj in interested_subjects_input.split(",")]]. *)
Definition interested_subjects (interested_subjects_input : pystr)
  : list pystr :=
  strip <$> split_on 44 [] interested_subjects_input.

(** A format string: its literal text and the values it interpolates. *)
Inductive fragment : Type :=
| Text (s : pystr)
| Value (v : pyjson).

(** What the application does on the console. *)
Inductive ui_event : Type :=
| Print (line : list fragment)
| Panel (body title : list fragment) (border_style : pystr)
| Confirm (prompt : pystr).

(** A run on the console: what happened and how it ended. *)
Definition UI (A : Type) : Type := list ui_event * result A.

Definition ui_bind {A B} (m : UI A) (k : A -> UI B) : UI B :=
  match m with
  | (tr, Ok a) => let '(tr', r) := k a in (tr ++ tr', r)
  | (tr, Raise e) => (tr, Raise e)
  end.

Notation "'ui!' x ':=' m 'in' k" :=
  (ui_bind m (fun x => k))
  (at level 10, x pattern, m at level 100, k at level 200).

Definition ui_pure {A} (r : result A) : UI A := ([], r).

Definition console_print (line : list fragment) : UI unit :=
  ([Print line], Ok tt).

(** The name of the type of a value, as error messages print it. *)
Definition type_name (v : pyjson) : string :=
  match v with
  | JNull => "NoneType"
  | JBool _ => "bool"
  | JInt _ => "int"
  | JFloat _ => "float"
  | JStr _ => "str"
  | JList _ => "list"
  | JDict _ => "dict"
  end.

(** [d[key]] on a dict. *)
Definition dict_getitem (d : list (pystr * pyjson)) (key : string)
  : result pyjson :=
  match dict_get d (py key) with
  | Some v => Ok v
  | None => Raise (Exn KeyError (py "'" ++ py key ++ py "'"))
  end.

(** [v[key]] for a [str] key on any value: a dict looks the key up, a
    list and a string want an integer, the other values cannot be
    subscripted. *)
Definition subscript (v : pyjson) (key : string) : result pyjson :=
  match v with
  | JDict d => dict_getitem d key
  | JList _ =>
      Raise (Exn TypeError
               (py "list indices must be integers or slices, not str"))
  | JStr _ =>
      Raise (Exn TypeError (py "string indices must be integers, not 'str'"))
  | _ =>
      Raise (Exn TypeError
               (py "'" ++ py (type_name v) ++ py "' object is not subscriptable"))
  end.

(** An [int], which a [bool] is too. *)
Definition as_int (v : pyjson) : option Z :=
  match v with
  | JInt z => Some z
  | JBool b => Some (if b then 1 else 0)%Z
  | _ => None
  end.

(** The star of the importance, U+2B50. *)
Definition star : N := 11088.

(** ["⭐" * v]. *)
Definition stars (v : pyjson) : result pystr :=
  match as_int v with
  | Some n => Ok (repeat star (Z.to_nat n))
  | None =>
      Raise (Exn TypeError
               (py "can't multiply sequence by non-int of type '"
                ++ py (type_name v) ++ py "'"))
  end.

(** [v >= n] for the importance, an [int] once its stars are made. *)
Definition at_least (v : pyjson) (n : Z) : bool :=
  match as_int v with
  | Some z => (n <=? z)%Z
  | None => false
  end.

(** The items [enumerate] walks through: the elements of a list, the
    characters of a string, the keys of a dict. *)
Definition iterate (v : pyjson) : result (list pyjson) :=
  match v with
  | JList items => Ok items
  | JStr s => Ok ((fun c => JStr [c]) <$> s)
  | JDict d => Ok ((fun kv => JStr (fst kv)) <$> d)
  | _ =>
      Raise (Exn TypeError
               (py "'" ++ py (type_name v) ++ py "' object is not iterable"))
  end.

(** The body of the loop over the cards, from card number [i] on.
    [answers i] is what the user answers when asked after card [i];
    [count] is [len(flash_cards['cards'])]. *)
Fixpoint show_cards (flash_cards : list (pystr * pyjson)) (count : nat)
    (answers : nat -> bool) (i : nat) (cards : list pyjson) : UI unit :=
  match cards with
  | [] => ([], Ok tt)
  | card :: rest =>
      ui! importance := ui_pure (subscript card "importance") in
      ui! importance_stars := ui_pure (stars importance) in
      ui! question := ui_pure (subscript card "question") in
      ui! answer := ui_pure (subscript card "answer") in
      ui! category := ui_pure (subscript card "category") in
      ui! total_cards := ui_pure (dict_getitem flash_cards "total_cards") in
      ui! importance := ui_pure (subscript card "importance") in
      let border_style :=
        if at_least importance 4 then py "red"
        else if at_least importance 2 then py "yellow"
        else py "green" in
      ui! _ :=
        ([Panel
            [Text (py "[bold green]Q: "); Value question;
             Text (py "[/bold green]" ++ [10; 10]%N ++ py "[bold blue]A: ");
             Value answer;
             Text (py "[/bold blue]" ++ [10; 10]%N ++ py "[dim]Category: ");
             Value category; Text (py " | Importance: ");
             Text importance_stars; Text (py "[/dim]")]
            [Text (py "Card " ++ str_of_nat i ++ py "/"); Value total_cards]
            border_style], Ok tt) in
      if i <? count then
        ui! next :=
          ([Confirm (py "[cyan]View next card?[/cyan]")], Ok (answers i)) in
        if next then show_cards flash_cards count answers (S i) rest
        else ([], Ok tt)
      else show_cards flash_cards count answers (S i) rest
  end.

(** [display_flash_cards(flash_cards)] on a [dict], the type its
    parameter is annotated with. *)
Definition display_flash_cards (flash_cards : list (pystr * pyjson))
    (answers : nat -> bool) : UI unit :=
  match flash_cards with
  | [] =>
      console_print
        [Text (py "[bold red]No flash cards were generated.[/bold red]")]
  | _ =>
      ui! title := ui_pure (dict_getitem flash_cards "title") in
      ui! _ :=
        console_print
          [Text ([10%N] ++ py "[bold yellow]" ++ [128218; 32]%N); Value title;
           Text ([32; 128218]%N ++ py "[/bold yellow]")] in
      ui! subject := ui_pure (dict_getitem flash_cards "subject") in
      ui! _ :=
        console_print
          [Text (py "[italic cyan]Subject: "); Value subject;
           Text (py "[/italic cyan]")] in
      ui! difficulty_level :=
        ui_pure (dict_getitem flash_cards "difficulty_level") in
      ui! _ :=
        console_print
          [Text (py "[italic cyan]Difficulty: "); Value difficulty_level;
           Text (py "[/italic cyan]")] in
      ui! total_cards := ui_pure (dict_getitem flash_cards "total_cards") in
      ui! _ :=
        console_print
          [Text (py "[italic cyan]Total Cards: "); Value total_cards;
           Text (py "[/italic cyan]" ++ [10%N])] in
      ui! cards := ui_pure (dict_getitem flash_cards "cards") in
      ui! items := ui_pure (iterate cards) in
      show_cards flash_cards (length items) answers 1 items
  end.

End app.

(** *** Vocabulary for the application *)

(** What [strip] leaves: a text with no white space at either end. *)
Definition stripped (s : pystr) : Prop :=
  app.lstrip s = s /\ app.lstrip (rev s) = rev s.

(** The keys that [display_flash_cards] reads before the loop, in the
    order it reads them. *)
Definition header_keys : list string :=
  ["title"; "subject"; "difficulty_level"; "total_cards"; "cards"].

(** The panels and the questions of a run. *)
Definition is_panel (ev : app.ui_event) : bool :=
  match ev with app.Panel _ _ _ => true | _ => false end.

Definition is_question (ev : app.ui_event) : bool :=
  match ev with app.Confirm _ => true | _ => false end.

Definition panels (tr : list app.ui_event) : nat :=
  length (List.filter is_panel tr).

Definition questions (tr : list app.ui_event) : nat :=
  length (List.filter is_question tr).

(** A well-shaped set with two cards, the total announced as three. *)
Definition two_cards : list (pystr * pyjson) :=
  [(py "title", JStr (py "Algebra"));
   (py "subject", JStr (py "Mathematics"));
   (py "cards",
    JList
      [JDict [(py "question", JStr (py "What is a group?"));
              (py "answer", JStr (py "A set with an associative operation, a unit and inverses."));
              (py "category", JNull);
              (py "importance", JInt 5)];
       JDict [(py "question", JStr (py "What is a ring?"));
              (py "answer", JStr (py "An abelian group with a multiplication."));
              (py "category", JStr (py "Rings"));
              (py "importance", JInt 1)]]);
   (py "total_cards", JInt 3);
   (py "difficulty_level", JStr (py "Beginner"))].
(** ** Proof steps *)

(** Runs a computation as far as its collaborators are known. *)
Ltac run :=
  cbn [bind call pure ret raise try_except first_content split_receiver
       rbind lookup list_lookup app fst snd].

(** ** Lemmas on [split] and [join] *)

Lemma split_from_app (w : pystr) : forall cur s,
  no_space w ->
  split_from cur (w ++ s) = split_from (rev w ++ cur) s.
Proof.
  unfold no_space.
  induction w as [|c w IH]; intros cur s Hw; simpl in *.
  - reflexivity.
  - apply andb_prop in Hw as [Hc Hw].
    apply negb_true_iff in Hc. rewrite Hc.
    rewrite IH by assumption. by rewrite <- app_assoc.
Qed.

Lemma rev_not_nil {A} (l : list A) : l <> [] -> rev l <> [].
Proof.
  intros Hl Hr. apply Hl. rewrite <- (rev_involutive l), Hr. reflexivity.
Qed.

Lemma no_space_rev (w : pystr) : no_space w -> no_space (rev w).
Proof.
  unfold no_space. rewrite !forallb_forall. intros H c Hc.
  apply H. by apply in_rev.
Qed.

Lemma split_from_words : forall s cur,
  no_space cur -> Forall is_word (split_from cur s).
Proof.
  induction s as [|c s IH]; intros cur Hcur; simpl.
  - destruct cur as [|a cur]; constructor; [|constructor].
    split; [by apply rev_not_nil | by apply no_space_rev].
  - destruct (is_space c) eqn:Hc.
    + destruct cur as [|a cur]; [by apply IH|].
      constructor; [|by apply IH].
      split; [by apply rev_not_nil | by apply no_space_rev].
    + apply IH. unfold no_space in *. simpl. by rewrite Hc, Hcur.
Qed.

Lemma split_words (s : pystr) : Forall is_word (split s).
Proof. by apply split_from_words. Qed.

Lemma split_word (w : pystr) : is_word w -> split w = [w].
Proof.
  intros [Hne Hw]. unfold split.
  rewrite <- (app_nil_r w) at 1. rewrite split_from_app by assumption.
  rewrite app_nil_r. simpl.
  destruct (rev w) eqn:Hr; [by apply rev_not_nil in Hne|].
  by rewrite <- Hr, rev_involutive.
Qed.

Lemma split_word_space (w s : pystr) :
  is_word w -> split (w ++ 32%N :: s) = w :: split s.
Proof.
  intros [Hne Hw]. unfold split.
  rewrite split_from_app by assumption. rewrite app_nil_r.
  change (split_from (rev w) (32%N :: s))
    with (match rev w with
          | [] => split_from [] s
          | _ => rev (rev w) :: split_from [] s
          end).
  destruct (rev w) eqn:Hr; [by apply rev_not_nil in Hne|].
  by rewrite <- Hr, rev_involutive.
Qed.

(** Splitting what [' '.join] made of a list of words gives the words back. *)
Lemma split_join_words (ws : list pystr) :
  Forall is_word ws -> split (join (py " ") ws) = ws.
Proof.
  induction 1 as [|w ws Hw Hws IH]; [reflexivity|].
  destruct ws as [|w' ws]; [by apply split_word|].
  change (join (py " ") (w :: w' :: ws))
    with (w ++ 32%N :: join (py " ") (w' :: ws)).
  rewrite split_word_space by assumption. by rewrite IH.
Qed.

Lemma word_count_join_words (ws : list pystr) :
  Forall is_word ws -> word_count (join (py " ") ws) = length ws.
Proof. intros H. unfold word_count. by rewrite split_join_words. Qed.

(** ** The JSON decoder has fuel enough

    Every call of the scanner consumes input, so a fuel of twice the
    length of the document is never used up: [json.loads] fails with a
    [JSONDecodeError] (or a [TypeError]) only. *)

Lemma leaves_le {A} (n m : nat) (res : Json.scan (A * nat * pystr)) :
  scan_leaves n res -> n <= m -> scan_leaves m res.
Proof. destruct res as [[[a i] r]|[msg pos|]]; cbn; intros; auto; lia. Qed.

Lemma leaves_sbind {A B} (n m : nat) (res : Json.scan (A * nat * pystr))
    (k : A * nat * pystr -> Json.scan (B * nat * pystr)) :
  scan_leaves n res ->
  (forall a i r, length r <= n -> scan_leaves m (k (a, i, r))) ->
  scan_leaves m (Json.sbind res k).
Proof.
  destruct res as [[[a i] r]|[msg pos|]]; cbn; intros Hm Hk; auto.
Qed.

Lemma skip_ws_length (rest : pystr) : forall idx,
  length (snd (Json.skip_ws idx rest)) <= length rest.
Proof.
  induction rest as [|c rest IH]; intros idx; cbn [Json.skip_ws]; [done|].
  destruct (Json.is_ws c); cbn [snd length]; [|done].
  specialize (IH (S idx)). lia.
Qed.

Lemma scanstring_leaves (n : nat) : forall rest begin idx acc,
  length rest <= n ->
  scan_leaves (length rest) (Json.scanstring begin idx acc rest).
Proof.
  induction n as [|n IH]; intros rest begin idx acc Hlen.
  - destruct rest; [exact I|cbn in Hlen; lia].
  - destruct rest as [|c rest1]; [exact I|]. cbn [Json.scanstring].
    cbn [length] in Hlen.
    destruct (c =? 34)%N; [cbn; lia|].
    destruct (c =? 92)%N.
    + destruct rest1 as [|esc rest2]; [exact I|].
      cbn [length] in Hlen.
      destruct (esc =? 117)%N.
      * destruct rest2 as [|h1 [|h2 [|h3 [|h4 [|x rest7]]]]]; try exact I.
        destruct (Json.hex4 h1 h2 h3 h4) as [u|]; [|exact I].
        cbn [length] in Hlen.
        assert (H6 : scan_leaves (7 + length rest7)
                       (Json.scanstring begin (idx + 6) (u :: acc)
                          (x :: rest7))).
        { eapply leaves_le; [apply IH|]; cbn [length]; lia. }
        destruct rest7 as [|v [|g1 [|g2 [|g3 [|g4 [|y rest13]]]]]];
          try exact H6.
        destruct (Json.is_high_surrogate u && (x =? 92)%N && (v =? 117)%N);
          [|exact H6].
        destruct (Json.hex4 g1 g2 g3 g4) as [u2|]; [|exact I].
        destruct (Json.is_low_surrogate u2); [|exact H6].
        cbn [length] in Hlen.
        eapply leaves_le; [apply IH|]; cbn [length]; lia.
      * destruct (Json.backslash esc); [|exact I].
        eapply leaves_le; [apply IH|]; cbn [length]; lia.
    + destruct (c <=? 31)%N; [exact I|].
      eapply leaves_le; [apply IH|]; cbn [length]; lia.
Qed.

Lemma take_digits_length (rest : pystr) :
  length (snd (Json.take_digits rest)) <= length rest.
Proof.
  induction rest as [|c rest IH]; cbn [Json.take_digits]; [done|].
  destruct (Json.is_digit c); [|done].
  destruct (Json.take_digits rest) as [ds r]. cbn [snd length] in *. lia.
Qed.

Lemma match_frac_length (rest : pystr) :
  length (snd (Json.match_frac rest)) <= length rest.
Proof.
  unfold Json.match_frac. destruct rest as [|c rest]; [done|].
  destruct (c =? 46)%N; [|done].
  pose proof (take_digits_length rest) as H.
  destruct (Json.take_digits rest) as [[|d ds] r]; cbn [snd length] in *; lia.
Qed.

Lemma match_exp_length (rest : pystr) :
  length (snd (Json.match_exp rest)) <= length rest.
Proof.
  unfold Json.match_exp. destruct rest as [|e rest1]; [done|].
  destruct ((e =? 101) || (e =? 69))%N; [|done].
  assert (Hsign : forall sign rest2,
            length rest2 <= length rest1 ->
            length (snd (match Json.take_digits rest2 with
                         | ([], _) => ([], e :: rest1)
                         | (ds, r) => (e :: sign ++ ds, r)
                         end)) <= length (e :: rest1)).
  { intros sign rest2 Hle. pose proof (take_digits_length rest2) as H.
    destruct (Json.take_digits rest2) as [[|d ds] r]; cbn [snd length] in *; lia. }
  destruct rest1 as [|s r]; [by apply Hsign|].
  destruct ((s =? 45) || (s =? 43))%N; apply Hsign; cbn [length]; lia.
Qed.

Lemma match_integer_length (rest int r : pystr) :
  Json.match_integer rest = Some (int, r) -> length r < length rest.
Proof.
  unfold Json.match_integer. destruct rest as [|c rest]; [done|].
  destruct (c =? 48)%N; [intros [= <- <-]; cbn; lia|].
  destruct (Json.is_digit c); [|done].
  pose proof (take_digits_length rest) as H.
  destruct (Json.take_digits rest) as [ds r']. intros [= <- <-]. cbn in *. lia.
Qed.

Lemma match_sign_length (rest : pystr) :
  length (snd (Json.match_sign rest)) <= length rest.
Proof.
  unfold Json.match_sign. destruct rest as [|c r]; [done|].
  destruct (c =? 45)%N; cbn [snd length]; lia.
Qed.

Lemma expect_length (c : N) (rest r : pystr) :
  Json.expect c rest = Some r -> length rest = S (length r).
Proof.
  unfold Json.expect. destruct rest as [|x rest]; [done|].
  by destruct (x =? c)%N; intros [= <-].
Qed.

Lemma match_number_leaves (idx : nat) (rest : pystr) :
  scan_leaves (pred (length rest)) (Json.match_number idx rest).
Proof.
  unfold Json.match_number.
  pose proof (match_sign_length rest) as Hs.
  destruct (Json.match_sign rest) as [neg rest1]. cbn [snd] in Hs.
  destruct (Json.match_integer rest1) as [[int rest2]|] eqn:Hint; [|exact I].
  apply match_integer_length in Hint.
  pose proof (match_frac_length rest2) as Hf.
  destruct (Json.match_frac rest2) as [frac rest3].
  pose proof (match_exp_length rest3) as He.
  destruct (Json.match_exp rest3) as [exp rest4].
  cbn [snd length scan_leaves] in *. lia.
Qed.

Lemma startswith_length (s p : pystr) :
  startswith s p = true -> length p <= length s.
Proof.
  revert s. induction p as [|a p IH]; intros [|b s]; cbn; try done; try lia.
  intros [_ H]%andb_prop. apply IH in H. lia.
Qed.

Lemma literal_length (word : string) (v : pyjson) (idx : nat) (rest : pystr)
    (x : pyjson * nat * pystr) :
  py word <> [] ->
  Json.literal word v idx rest = Some x ->
  length (snd x) < length rest.
Proof.
  unfold Json.literal. intros Hne.
  destruct (startswith rest (py word)) eqn:Hs; [|done].
  intros [= <-]. cbn [snd]. apply startswith_length in Hs.
  rewrite length_drop. destruct (py word); [done|]. cbn [length] in *. lia.
Qed.

Lemma scan_fuel (fuel : nat) :
  (forall idx rest, 2 * length rest + 1 <= fuel ->
     scan_leaves (pred (length rest)) (Json.scan_once fuel idx rest))
  /\ (forall d idx rest, 2 * length rest + 2 <= fuel ->
        scan_leaves (pred (length rest)) (Json.parse_object fuel d idx rest))
  /\ (forall acc idx rest, 2 * length rest + 2 <= fuel ->
        scan_leaves (pred (length rest)) (Json.parse_array fuel acc idx rest)).
Proof.
  induction fuel as [|fuel (IHs & IHo & IHa)].
  { repeat split; intros; lia. }
  split; [|split].
  - intros idx [|c rest] Hfuel; [exact I|]. cbn [length pred] in *.
    cbn [Json.scan_once].
    destruct (c =? 34)%N.
    { eapply leaves_sbind; [by eapply scanstring_leaves|].
      intros s i r Hr. exact Hr. }
    destruct (c =? 123)%N.
    { pose proof (skip_ws_length rest (S idx)) as Hws.
      destruct (Json.skip_ws (S idx) rest) as [i r]. cbn [snd] in Hws.
      destruct (Json.expect 125 r) as [r'|] eqn:Hclose.
      - apply expect_length in Hclose. cbn [scan_leaves]. lia.
      - eapply leaves_le; [apply IHo|]; lia. }
    destruct (c =? 91)%N.
    { pose proof (skip_ws_length rest (S idx)) as Hws.
      destruct (Json.skip_ws (S idx) rest) as [i r]. cbn [snd] in Hws.
      destruct (Json.expect 93 r) as [r'|] eqn:Hclose.
      - apply expect_length in Hclose. cbn [scan_leaves]. lia.
      - eapply leaves_le; [apply IHa|]; lia. }
    repeat match goal with
    | |- context [Json.literal ?w ?v ?i ?r] =>
        let H := fresh "Hlit" in
        destruct (Json.literal w v i r) as [[[? ?] ?]|] eqn:H;
        [apply literal_length in H;
         [cbn [snd length scan_leaves] in *; lia | discriminate]|]
    end.
    apply (match_number_leaves idx (c :: rest)).
  - intros d idx rest Hfuel. cbn [Json.parse_object].
    destruct (Json.expect 34 rest) as [rest1|] eqn:Hquote; [|exact I].
    apply expect_length in Hquote.
    eapply leaves_sbind; [by eapply scanstring_leaves|].
    intros key i r Hr.
    pose proof (skip_ws_length r i) as Hws.
    destruct (Json.skip_ws i r) as [i1 r1]. cbn [snd] in Hws.
    destruct (Json.expect 58 r1) as [r2|] eqn:Hcolon; [|exact I].
    apply expect_length in Hcolon.
    pose proof (skip_ws_length r2 (S i1)) as Hws2.
    destruct (Json.skip_ws (S i1) r2) as [i2 r3]. cbn [snd] in Hws2.
    eapply leaves_sbind; [apply IHs; lia|].
    intros val i3 r4 Hr4.
    pose proof (skip_ws_length r4 i3) as Hws4.
    destruct (Json.skip_ws i3 r4) as [i4 r5]. cbn [snd] in Hws4.
    destruct (Json.expect 125 r5) as [r6|] eqn:Hclose.
    { apply expect_length in Hclose. cbn [scan_leaves]. lia. }
    destruct (Json.expect 44 r5) as [r6|] eqn:Hcomma; [|exact I].
    apply expect_length in Hcomma.
    pose proof (skip_ws_length r6 (S i4)) as Hws6.
    destruct (Json.skip_ws (S i4) r6) as [i5 r7]. cbn [snd] in Hws6.
    eapply leaves_le; [apply IHo|]; lia.
  - intros acc idx rest Hfuel. cbn [Json.parse_array].
    eapply leaves_sbind; [apply IHs; lia|].
    intros val i r Hr.
    pose proof (skip_ws_length r i) as Hws.
    destruct (Json.skip_ws i r) as [i1 r1]. cbn [snd] in Hws.
    destruct (Json.expect 93 r1) as [r2|] eqn:Hclose.
    { apply expect_length in Hclose. cbn [scan_leaves]. lia. }
    destruct (Json.expect 44 r1) as [r2|] eqn:Hcomma; [|exact I].
    apply expect_length in Hcomma.
    pose proof (skip_ws_length r2 (S i1)) as Hws2.
    destruct (Json.skip_ws (S i1) r2) as [i2 r3]. cbn [snd] in Hws2.
    eapply leaves_le; [apply IHa|]; lia.
Qed.

(** [json.loads] never runs out of fuel. *)
Lemma loads_never_too_deep (s : option pystr) (e : exn) :
  Json.loads s = Raise e -> exn_class e <> RecursionError.
Proof.
  destruct s as [s|]; cbn [Json.loads]; [|by intros [= <-]].
  destruct (startswith s [65279%N]); [by intros [= <-]|].
  unfold Json.decode.
  pose proof (skip_ws_length s 0) as Hws.
  destruct (Json.skip_ws 0 s) as [i r]. cbn [snd] in Hws.
  pose proof (proj1 (scan_fuel (2 * length s + 2)) i r) as Hscan.
  destruct (Json.scan_once (2 * length s + 2) i r)
    as [[[obj i1] r1]|[msg pos|]].
  - destruct (Json.skip_ws i1 r1) as [i2 [|x r2]]; [done|by intros [= <-]].
  - by intros [= <-].
  - exfalso. apply Hscan. lia.
Qed.

(** ** Text input *)

(** C5. A non-empty text is accepted by the constructor, and
    [ProcessTextInput._process], called with its default bounds, returns
    the text unchanged when its word count lies in [30, 2000] inclusive;
    when the count lies outside it fails with the validation error (a
    [ValueError]: too short below 30 words, too long above 2000). *)
Theorem text_process_bounds (text : pystr) :
  (text <> [] ->
     ProcessTextInput.__init__ text
     = ([], Ok {| ProcessTextInput.text := text |}))
  /\ (30 <= word_count text <= 2000 ->
        ProcessTextInput._process {| ProcessTextInput.text := text |} 30 2000
        = ([], Ok text))
  /\ (word_count text < 30 ->
        ProcessTextInput._process {| ProcessTextInput.text := text |} 30 2000
        = ([], Raise (Exn ValueError msg_too_short)))
  /\ (2000 < word_count text ->
        ProcessTextInput._process {| ProcessTextInput.text := text |} 30 2000
        = ([], Raise (Exn ValueError msg_too_long))).
Proof.
  split.
  { intros Hne. unfold ProcessTextInput.__init__.
    by destruct text as [|c text]. }
  unfold ProcessTextInput._process, word_count.
  cbn [ProcessTextInput.text]. set (n := length (split text)).
  repeat split; intros H.
  - destruct (Z.ltb_spec (Z.of_nat n) 30); [lia|].
    destruct (Z.gtb_spec (Z.of_nat n) 2000); [lia|]. reflexivity.
  - destruct (Z.ltb_spec (Z.of_nat n) 30); [reflexivity|lia].
  - destruct (Z.ltb_spec (Z.of_nat n) 30); [lia|].
    destruct (Z.gtb_spec (Z.of_nat n) 2000); [reflexivity|lia].
Qed.

Lemma text_process_bounds_witness :
  ProcessTextInput.__init__ (words_of "word" 30)
  = ([], Ok {| ProcessTextInput.text := words_of "word" 30 |})
  /\ ProcessTextInput._process
       {| ProcessTextInput.text := words_of "word" 30 |} 30 2000
     = ([], Ok (words_of "word" 30))
  /\ ProcessTextInput._process
       {| ProcessTextInput.text := py "too short" |} 30 2000
     = ([], Raise (Exn ValueError msg_too_short))
  /\ ProcessTextInput._process
       {| ProcessTextInput.text := words_of "w" 2001 |} 30 2000
     = ([], Raise (Exn ValueError msg_too_long)).
Proof.
  split; [|split; [|split]].
  - apply (text_process_bounds (words_of "word" 30)). discriminate.
  - apply (text_process_bounds (words_of "word" 30)). vm_compute. lia.
  - apply (text_process_bounds (py "too short")). vm_compute. lia.
  - apply (text_process_bounds (words_of "w" 2001)). vm_compute. lia.
Defined.

(** ** PDF input *)

Lemma length_take_lt {A} (l : list A) (n : nat) :
  n < length l -> length (take n l) = n.
Proof. intros H. rewrite length_take. lia. Qed.

Lemma Forall_take_words (n : nat) (s : pystr) :
  Forall is_word (take n (split s)).
Proof. apply Forall_take, split_words. Qed.

(** The pages of a document of more than one page, whatever their text,
    pass the checks. *)
Lemma check_pages_multi (pages : list pystr) :
  1 < length pages ->
  ProcessPDF.check_pages pages
  = ([], Ok (if 4000 <? word_count (join [] pages)
             then join (py " ") (take 4000 (split (join [] pages)))
             else join [] pages)).
Proof.
  intros Hlen. unfold ProcessPDF.check_pages, word_count.
  destruct pages as [|p [|q pages]]; simpl in Hlen; try lia.
  destruct (Nat.ltb_spec 1 (length (p :: q :: pages))); [|simpl in *; lia].
  cbn [bind ret]. by destruct (4000 <? _).
Qed.

(** A single page of fewer than ten words is rejected. *)
Lemma check_pages_single_short (page : pystr) :
  word_count page < 10 ->
  ProcessPDF.check_pages [page] = ([], Raise (Exn ValueError msg_too_short)).
Proof.
  intros H. unfold ProcessPDF.check_pages, word_count in *.
  by destruct (Nat.ltb_spec (length (split page)) 10); [|lia].
Qed.

(** A single page of ten words or more passes the length check and then
    reads the variable that only the branch for several pages binds. *)
Lemma check_pages_single_long (page : pystr) :
  10 <= word_count page ->
  ProcessPDF.check_pages [page]
  = ([], Raise (Exn UnboundLocalError ProcessPDF.msg_unbound_combined_text)).
Proof.
  intros H. unfold ProcessPDF.check_pages, word_count in *.
  by destruct (Nat.ltb_spec (length (split page)) 10); [lia|].
Qed.

(** C1. [ProcessPDF._process] on the pages PyMuPDF reads: a document of
    exactly one page with fewer than 10 words fails with the validation
    error (a [ValueError]); a document of several pages is never rejected
    for its length, and when its concatenated text has more than 4000
    words the result is the first 4000 words of the concatenation, joined
    by single spaces: it splits into exactly those 4000 words. *)
Theorem pdf_process_short_and_truncate
    (w : World) (self : ProcessPDF.t) (pages : list pystr) :
  pymupdf_open w (ProcessPDF.pdf_path self) = Ok pages ->
  (forall page, pages = [page] -> word_count page < 10 ->
     ProcessPDF._process w self
     = ([EvPdfOpen (ProcessPDF.pdf_path self)],
        Raise (Exn ValueError msg_too_short)))
  /\ (1 < length pages ->
        exists out, snd (ProcessPDF._process w self) = Ok out)
  /\ (1 < length pages -> 4000 < word_count (join [] pages) ->
        exists out,
          ProcessPDF._process w self
          = ([EvPdfOpen (ProcessPDF.pdf_path self)], Ok out)
          /\ out = join (py " ") (take 4000 (split (join [] pages)))
          /\ split out = take 4000 (split (join [] pages))
          /\ word_count out = 4000).
Proof.
  intros Hopen. unfold ProcessPDF._process.
  rewrite Hopen. unfold call. cbn [bind].
  split; [|split].
  - intros page -> Hshort. by rewrite check_pages_single_short.
  - intros Hlen. rewrite check_pages_multi by assumption. eauto.
  - intros Hlen Hlong. rewrite check_pages_multi by assumption.
    set (text := join [] pages) in *.
    destruct (Nat.ltb_spec 4000 (word_count text)); [|lia].
    eexists. split; [reflexivity|]. split; [reflexivity|].
    assert (Hs : split (join (py " ") (take 4000 (split text)))
                 = take 4000 (split text))
      by apply split_join_words, Forall_take_words.
    split; [exact Hs|].
    unfold word_count in *. rewrite Hs. by apply length_take_lt.
Qed.

Lemma pdf_process_short_and_truncate_witness :
  ProcessPDF._process (pdf_world [py "only three words"]) notes_pdf
  = ([EvPdfOpen (py "notes.pdf")], Raise (Exn ValueError msg_too_short))
  /\ exists out,
       ProcessPDF._process (pdf_world [words_of "w" 4000; py "last"]) notes_pdf
       = ([EvPdfOpen (py "notes.pdf")], Ok out)
       /\ word_count out = 4000.
Proof.
  split.
  - destruct (pdf_process_short_and_truncate
                (pdf_world [py "only three words"]) notes_pdf
                [py "only three words"] eq_refl) as (H & _ & _).
    apply (H (py "only three words") eq_refl). vm_compute. lia.
  - destruct (pdf_process_short_and_truncate
                (pdf_world [words_of "w" 4000; py "last"]) notes_pdf
                [words_of "w" 4000; py "last"] eq_refl) as (_ & _ & H).
    destruct H as (out & Hrun & _ & _ & Hwc);
      [vm_compute; lia | vm_compute; lia |].
    exists out. split; assumption.
Defined.

(** C2. The contract of the strategies (non-empty text within the bounds
    of the kind, or one of the errors of the taxonomy) breaks on a PDF of
    one page: a page of ten words passes the length check, after which
    [_process] returns a variable that was never bound. The run ends in
    [UnboundLocalError], in the strategy and through the facade alike,
    and no card is generated. *)
Theorem pdf_single_page_unbound :
  ProcessPDF._process (pdf_world [ten_words]) notes_pdf
  = ([EvPdfOpen (py "notes.pdf")],
     Raise (Exn UnboundLocalError ProcessPDF.msg_unbound_combined_text))
  /\ FlashCardService.generate_from_input (pdf_world [ten_words])
       (five_cards (pdf_world [ten_words])) (py "pdf") pdf_kwargs
     = ([EvPdfOpen (py "notes.pdf")],
        Raise (Exn UnboundLocalError ProcessPDF.msg_unbound_combined_text)).
Proof. split; vm_compute; reflexivity. Qed.

(** ** Audio input *)

(** The run of [ProcessAudioInput._process] on a transcript with a text. *)
Lemma audio_process_run (w : World) (self : ProcessAudioInput.t)
    (transcript : gmap string pystr) (text : pystr) :
  audio_result w self transcript text ->
  ProcessAudioInput._process w self
  = ([EvTranscribe (ProcessAudioInput.audio_path self)],
     if word_count text <? 10 then Raise (Exn ValueError msg_too_short)
     else match transcript !! "language" with
          | Some language =>
              if bool_decide (language = py "en") then Ok text
              else Raise (Exn ValueError msg_not_english)
          | None => Raise (Exn KeyError (py "'language'"))
          end).
Proof.
  intros [Hrun Htext]. unfold ProcessAudioInput._process.
  rewrite Hrun. unfold call, pure, getitem. cbn [bind]. rewrite Htext.
  fold (word_count text). destruct (word_count text <? 10); [reflexivity|].
  destruct (transcript !! "language") as [language|]; [|reflexivity].
  cbn [bind]. by destruct (bool_decide (language = py "en")).
Qed.

(** C9. A transcript whose detected language is not ["en"] makes
    [ProcessAudioInput._process] fail with the validation error (a
    [ValueError]) whatever the number of words of its text: below ten
    words the text is reported too short, from ten words on the audio is
    reported not to be English. *)
Theorem audio_not_english_fails (w : World) (self : ProcessAudioInput.t)
    (transcript : gmap string pystr) (text language : pystr) :
  audio_result w self transcript text ->
  transcript !! "language" = Some language ->
  language <> py "en" ->
  ProcessAudioInput._process w self
  = ([EvTranscribe (ProcessAudioInput.audio_path self)],
     Raise (Exn ValueError
              (if word_count text <? 10 then msg_too_short
               else msg_not_english))).
Proof.
  intros Hres Hlang Hne. rewrite (audio_process_run _ _ _ _ Hres), Hlang.
  rewrite bool_decide_eq_false_2 by assumption.
  by destruct (word_count text <? 10).
Qed.

Lemma audio_not_english_fails_witness :
  ProcessAudioInput._process
    (audio_world (transcript_of ten_words (py "fr"))) lecture
  = ([EvTranscribe (py "lecture.mp3")],
     Raise (Exn ValueError msg_not_english))
  /\ ProcessAudioInput._process
       (audio_world (transcript_of (py "bonjour") (py "fr"))) lecture
     = ([EvTranscribe (py "lecture.mp3")],
        Raise (Exn ValueError msg_too_short)).
Proof.
  split.
  - apply (audio_not_english_fails
             (audio_world (transcript_of ten_words (py "fr"))) lecture
             (transcript_of ten_words (py "fr")) ten_words (py "fr"));
      [split; reflexivity | reflexivity | discriminate].
  - apply (audio_not_english_fails
             (audio_world (transcript_of (py "bonjour") (py "fr"))) lecture
             (transcript_of (py "bonjour") (py "fr")) (py "bonjour") (py "fr"));
      [split; reflexivity | reflexivity | discriminate].
Defined.

(** C10. [ProcessAudioInput._process] checks the length before the
    language. A transcript whose text has fewer than ten words fails with
    the too-short error whatever its language entry is, also when the
    entry is missing, in which case reading it would raise [KeyError]: the
    language is not looked at. Conversely a run that ends in the
    not-English error, or in the [KeyError] of a missing language, had a
    text of at least ten words. *)
Theorem audio_length_before_language (w : World) (self : ProcessAudioInput.t)
    (transcript : gmap string pystr) (text : pystr) :
  audio_result w self transcript text ->
  (word_count text < 10 ->
     ProcessAudioInput._process w self
     = ([EvTranscribe (ProcessAudioInput.audio_path self)],
        Raise (Exn ValueError msg_too_short))
     /\ forall w',
          whisper_transcribe w' (ProcessAudioInput.audio_path self)
          = Ok (delete "language" transcript) ->
          ProcessAudioInput._process w' self
          = ([EvTranscribe (ProcessAudioInput.audio_path self)],
             Raise (Exn ValueError msg_too_short)))
  /\ (forall e,
        snd (ProcessAudioInput._process w self) = Raise e ->
        e = Exn ValueError msg_not_english \/ exn_class e = KeyError ->
        10 <= word_count text).
Proof.
  intros Hres. split.
  - intros Hshort. split.
    + rewrite (audio_process_run _ _ _ _ Hres).
      by destruct (Nat.ltb_spec (word_count text) 10); [|lia].
    + intros w' Hrun'.
      assert (Hres' : audio_result w' self (delete "language" transcript) text).
      { split; [exact Hrun'|]. rewrite lookup_delete_ne by discriminate.
        apply Hres. }
      rewrite (audio_process_run _ _ _ _ Hres').
      by destruct (Nat.ltb_spec (word_count text) 10); [|lia].
  - intros e. rewrite (audio_process_run _ _ _ _ Hres). cbn [snd].
    destruct (Nat.ltb_spec (word_count text) 10) as [Hlt|Hge]; [|intros; lia].
    intros [= <-]. cbn. intros [H|H]; [|discriminate H].
    exfalso. revert H. vm_compute. discriminate.
Qed.

Lemma audio_length_before_language_witness :
  ProcessAudioInput._process
    (audio_world (transcript_of (py "bonjour tout le monde") (py "fr"))) lecture
  = ([EvTranscribe (py "lecture.mp3")], Raise (Exn ValueError msg_too_short))
  /\ ProcessAudioInput._process
       (audio_world (<["text" := py "bonjour tout le monde"]> ∅)) lecture
     = ([EvTranscribe (py "lecture.mp3")], Raise (Exn ValueError msg_too_short))
  /\ 10 <= word_count ten_words.
Proof.
  destruct (audio_length_before_language
              (audio_world (transcript_of (py "bonjour tout le monde") (py "fr")))
              lecture
              (transcript_of (py "bonjour tout le monde") (py "fr"))
              (py "bonjour tout le monde"))
    as [Hshort _]; [split; reflexivity|].
  destruct Hshort as [Hrun Hwithout]; [vm_compute; lia|].
  destruct (audio_length_before_language
              (audio_world (transcript_of ten_words (py "fr"))) lecture
              (transcript_of ten_words (py "fr")) ten_words)
    as [_ Hreached]; [split; reflexivity|].
  split; [exact Hrun|]. split.
  - apply Hwithout. reflexivity.
  - apply (Hreached (Exn ValueError msg_not_english)); [reflexivity|by left].
Defined.

(** ** Image, topic and user background *)

Lemma image_process_run (w : World) (self : ProcessImageInput.t)
    (model text : pystr) :
  image_result w self text ->
  snd (ProcessImageInput._process w self model)
  = if word_count text <? 10 then Raise (Exn ValueError msg_too_short)
    else Ok text.
Proof.
  intros (data & rest & Hread & Hseen).
  unfold ProcessImageInput._process, ProcessImageInput.encode_image.
  rewrite Hread. run. rewrite Hseen. run. fold (word_count text).
  by destruct (word_count text <? 10).
Qed.

Lemma topic_process_run (w : World) (self : ProcessTopic.t)
    (model text : pystr) :
  topic_result w self model text ->
  ProcessTopic._process w self model
  = ([EvChat (ProcessTopic.request self model)],
     if word_count text <? 10 then Raise (Exn ValueError msg_too_short)
     else if 2000 <? word_count text then Raise (Exn ValueError msg_too_long)
     else Ok text).
Proof.
  intros (rest & Hchat). unfold ProcessTopic._process.
  rewrite Hchat. run. fold (word_count text).
  destruct (word_count text <? 10); [reflexivity|].
  by destruct (2000 <? word_count text).
Qed.

Lemma user_bio_process_run (w : World) (self : ProcessUserBackground.t)
    (model text : pystr) :
  user_bio_result w self model text ->
  ProcessUserBackground._process w self model
  = ([EvChat (ProcessUserBackground.request w self model)],
     if word_count text <? 10 then Raise (Exn ValueError msg_too_short)
     else if 2000 <? word_count text then Raise (Exn ValueError msg_too_long)
     else Ok text).
Proof.
  intros (rest & Hchat). unfold ProcessUserBackground._process.
  rewrite Hchat. run. fold (word_count text).
  destruct (word_count text <? 10); [reflexivity|].
  by destruct (2000 <? word_count text).
Qed.

(** The claim as the specification states it fails for audio: a transcript
    of ten words in French does not make the extraction succeed. *)
Lemma extraction_min_words_counterexample :
  audio_result (audio_world (transcript_of ten_words (py "fr"))) lecture
    (transcript_of ten_words (py "fr")) ten_words
  /\ ~ (10 <= word_count ten_words ->
        snd (ProcessAudioInput._process
               (audio_world (transcript_of ten_words (py "fr"))) lecture)
        = Ok ten_words).
Proof.
  split; [split; reflexivity|].
  intros H. assert (Hten : 10 <= word_count ten_words) by (vm_compute; lia).
  apply H in Hten. revert Hten. vm_compute. discriminate.
Qed.

(** C8, amended. For the text an image, audio, topic or user-background
    extraction obtained: fewer than ten words fail with the validation
    error (a [ValueError], too short); ten words or more make the
    extraction return that text, provided that, for topic and user
    background, the text has at most 2000 words and that, for audio, the
    detected language is ["en"]. *)
Theorem extraction_min_words (w : World) (text : pystr) :
  (forall self model, image_result w self text ->
     (word_count text < 10 ->
        snd (ProcessImageInput._process w self model)
        = Raise (Exn ValueError msg_too_short))
     /\ (10 <= word_count text ->
           snd (ProcessImageInput._process w self model) = Ok text))
  /\ (forall self transcript, audio_result w self transcript text ->
        (word_count text < 10 ->
           snd (ProcessAudioInput._process w self)
           = Raise (Exn ValueError msg_too_short))
        /\ (10 <= word_count text ->
            transcript !! "language" = Some (py "en") ->
              snd (ProcessAudioInput._process w self) = Ok text))
  /\ (forall self model, topic_result w self model text ->
        (word_count text < 10 ->
           snd (ProcessTopic._process w self model)
           = Raise (Exn ValueError msg_too_short))
        /\ (10 <= word_count text <= 2000 ->
              snd (ProcessTopic._process w self model) = Ok text))
  /\ (forall self model, user_bio_result w self model text ->
        (word_count text < 10 ->
           snd (ProcessUserBackground._process w self model)
           = Raise (Exn ValueError msg_too_short))
        /\ (10 <= word_count text <= 2000 ->
              snd (ProcessUserBackground._process w self model) = Ok text)).
Proof.
  split; [|split; [|split]].
  - intros self model Hres. rewrite (image_process_run _ _ _ _ Hres).
    split; intros H;
      by destruct (Nat.ltb_spec (word_count text) 10); try lia.
  - intros self transcript Hres. rewrite (audio_process_run _ _ _ _ Hres).
    cbn [snd]. split.
    + intros H. by destruct (Nat.ltb_spec (word_count text) 10); try lia.
    + intros H ->. by destruct (Nat.ltb_spec (word_count text) 10); try lia.
  - intros self model Hres. rewrite (topic_process_run _ _ _ _ Hres).
    cbn [snd]. split; intros H.
    + by destruct (Nat.ltb_spec (word_count text) 10); try lia.
    + destruct (Nat.ltb_spec (word_count text) 10); try lia.
      by destruct (Nat.ltb_spec 2000 (word_count text)); try lia.
  - intros self model Hres. rewrite (user_bio_process_run _ _ _ _ Hres).
    cbn [snd]. split; intros H.
    + by destruct (Nat.ltb_spec (word_count text) 10); try lia.
    + destruct (Nat.ltb_spec (word_count text) 10); try lia.
      by destruct (Nat.ltb_spec 2000 (word_count text)); try lia.
Qed.

Lemma extraction_min_words_witness :
  snd (ProcessImageInput._process (vision_world [Some ten_words]) scan_png
         (py "gpt-4o-mini")) = Ok ten_words
  /\ snd (ProcessAudioInput._process
            (audio_world (transcript_of ten_words (py "en"))) lecture)
     = Ok ten_words
  /\ snd (ProcessTopic._process (chat_world [Some ten_words])
            (algebra (chat_world [Some ten_words])) default_model)
     = Ok ten_words
  /\ snd (ProcessUserBackground._process (chat_world [Some (py "too short")])
            (student (chat_world [Some (py "too short")])) default_model)
     = Raise (Exn ValueError msg_too_short).
Proof.
  split; [|split; [|split]].
  - destruct (extraction_min_words (vision_world [Some ten_words]) ten_words)
      as (H & _).
    apply H; [|vm_compute; lia]. exists [137; 80; 78; 71]%N, [].
    split; reflexivity.
  - destruct (extraction_min_words
                (audio_world (transcript_of ten_words (py "en"))) ten_words)
      as (_ & H & _).
    apply (H lecture (transcript_of ten_words (py "en")));
      [split; reflexivity | vm_compute; lia | reflexivity].
  - destruct (extraction_min_words (chat_world [Some ten_words]) ten_words)
      as (_ & _ & H & _).
    apply H; [exists []; reflexivity | vm_compute; lia].
  - destruct (extraction_min_words (chat_world [Some (py "too short")])
                (py "too short")) as (_ & _ & _ & H).
    apply H; [exists []; reflexivity | vm_compute; lia].
Defined.

(** ** The factory *)

(** The factory makes a [ProcessLink] for the tag [link] and for no other:
    the two branches of the dispatcher marked as not reached are not
    reached. *)
Lemma create_processor_link_iff (w : World) (input_type : pystr) (kw : kwargs)
    (tr : list event) (p : processor) :
  ContentProcessorFactory.create_processor w input_type kw = (tr, Ok p) ->
  input_type = py "link" <-> exists l, p = PLink l.
Proof.
  unfold ContentProcessorFactory.create_processor. intros Hmake. split.
  - intros ->. revert Hmake.
    rewrite !bool_decide_eq_false_2 by discriminate.
    rewrite bool_decide_eq_true_2 by reflexivity.
    unfold ProcessLink.__init__, py_assert.
    case_match; cbn [bind ret raise app]; [|discriminate].
    intros [= <- <-]. eauto.
  - intros [l ->]. revert Hmake.
    unfold ProcessTextInput.__init__, ProcessImageInput.__init__,
      ProcessAudioInput.__init__, ProcessPDF.__init__, ProcessLink.__init__,
      ProcessTopic.__init__, ProcessUserBackground.__init__, py_assert.
    repeat case_bool_decide; try done;
      repeat case_match; cbn [bind ret raise call app]; discriminate.
Qed.

(** The class of the error raised for a tag that is not known is the class
    of the validation errors: told apart from them by its message only. *)
Lemma unknown_tag_fails_counterexample :
  ~ (exists e,
       snd (ContentProcessorFactory.create_processor quiet_world
              (py "video") no_kwargs) = Raise e
       /\ forall e',
            snd (ProcessTextInput._process
                   {| ProcessTextInput.text := py "too short" |} 30 2000)
            = Raise e' ->
            exn_class e <> exn_class e').
Proof.
  intros (e & He & Hdistinct).
  apply (Hdistinct (Exn ValueError msg_too_short)); [reflexivity|].
  revert He. vm_compute. by intros [= <-].
Qed.

(** C7, amended. A tag outside the seven input types makes
    [create_processor] raise a [ValueError] that names the tag. No
    processor is made, so nothing is extracted and nothing generated: the
    dispatcher and the facade end in the same error, without any call to a
    collaborator. The error has the class of the validation errors. *)
Theorem unknown_tag_fails (w : World) (self : FlashCardService.t)
    (input_type : pystr) (kw : kwargs) :
  input_type ∉ input_kinds ->
  ContentProcessorFactory.create_processor w input_type kw
  = ([], Raise (Exn ValueError
                  (ContentProcessorFactory.msg_unknown_input_type input_type)))
  /\ ContentProcessorFactory.process_content w input_type kw
     = ([], Raise (Exn ValueError
                     (ContentProcessorFactory.msg_unknown_input_type input_type)))
  /\ FlashCardService.generate_from_input w self input_type kw
     = ([], Raise (Exn ValueError
                     (ContentProcessorFactory.msg_unknown_input_type input_type))).
Proof.
  intros Hout. unfold input_kinds in Hout.
  repeat (apply not_elem_of_cons in Hout as [? Hout]).
  assert (Hmake :
    ContentProcessorFactory.create_processor w input_type kw
    = ([], Raise (Exn ValueError
                    (ContentProcessorFactory.msg_unknown_input_type input_type)))).
  { unfold ContentProcessorFactory.create_processor.
    by rewrite !bool_decide_eq_false_2 by assumption. }
  assert (Hrun :
    ContentProcessorFactory.process_content w input_type kw
    = ([], Raise (Exn ValueError
                    (ContentProcessorFactory.msg_unknown_input_type input_type)))).
  { unfold ContentProcessorFactory.process_content. by rewrite Hmake. }
  split; [exact Hmake|]. split; [exact Hrun|].
  unfold FlashCardService.generate_from_input. by rewrite Hrun.
Qed.

Lemma unknown_tag_fails_witness :
  FlashCardService.generate_from_input quiet_world (five_cards quiet_world)
    (py "video") no_kwargs
  = ([], Raise (Exn ValueError (py "Unknown input type: video"))).
Proof.
  apply (unknown_tag_fails quiet_world (five_cards quiet_world)
           (py "video") no_kwargs).
  unfold input_kinds. repeat (apply not_elem_of_cons; split; [discriminate|]).
  apply not_elem_of_nil.
Defined.

(** ** The facade *)

Lemma silent_ret {A} (a : A) : silent (ret a).
Proof. constructor. Qed.

Lemma silent_raise {A} (e : exn) : silent (@raise A e).
Proof. constructor. Qed.

Lemma silent_pure {A} (r : result A) : silent (pure r).
Proof. constructor. Qed.

Lemma silent_py_assert (cond : bool) (msg : string) :
  silent (py_assert cond msg).
Proof. by destruct cond; constructor. Qed.

Lemma silent_call {A} (ev : event) (r : result A) :
  ~ generation_call ev -> silent (call ev r).
Proof. intros H. by repeat constructor. Qed.

Lemma silent_bind {A B} (m : M A) (k : A -> M B) :
  silent m -> (forall a, silent (k a)) -> silent (bind m k).
Proof.
  unfold silent. destruct m as [tr [a|e]]; cbn [bind fst]; intros Hm Hk.
  - specialize (Hk a). destruct (k a) as [tr' r]. by apply Forall_app.
  - assumption.
Qed.

(** Only a chat request that asks for a response format can be the request
    of the generator. *)
Lemma not_generation_call (ev : event) :
  match ev with
  | EvChat req => cr_response_format req = None
  | _ => True
  end ->
  ~ generation_call ev.
Proof. intros H (self & content & model & ->). discriminate H. Qed.

Create HintDb silent discriminated.
#[local] Hint Resolve silent_ret silent_raise silent_pure silent_py_assert
  : silent.

Ltac silent_step :=
  first
    [ solve [auto with silent]
    | apply silent_call; apply not_generation_call; first [exact I | reflexivity]
    | apply silent_bind; [|intros ?]
    | case_bool_decide
    | case_match ].

(** Making a processor generates no card. *)
Lemma silent_create_processor (w : World) (input_type : pystr) (kw : kwargs) :
  silent (ContentProcessorFactory.create_processor w input_type kw).
Proof.
  unfold ContentProcessorFactory.create_processor,
    ProcessTextInput.__init__, ProcessImageInput.__init__,
    ProcessAudioInput.__init__, ProcessPDF.__init__, ProcessLink.__init__,
    ProcessTopic.__init__, ProcessUserBackground.__init__.
  repeat silent_step.
Qed.

(** Extracting the content generates no card, whatever the input type. *)
Lemma silent_process_content (w : World) (input_type : pystr) (kw : kwargs) :
  silent (ContentProcessorFactory.process_content w input_type kw).
Proof.
  unfold ContentProcessorFactory.process_content.
  apply silent_bind; [apply silent_create_processor|].
  intros p.
  unfold ContentProcessorFactory.sync_process,
    ProcessTextInput._process, ProcessImageInput._process,
    ProcessImageInput.encode_image, ProcessAudioInput._process,
    ProcessPDF._process, ProcessPDF.check_pages, ProcessLink._process,
    ProcessTopic._process, ProcessUserBackground._process.
  repeat silent_step.
Qed.

(** The factory makes a [ProcessLink] of a link that starts with [http]. *)
Lemma create_processor_link (w : World) (kw : kwargs) (link : pystr) :
  kw_link kw = Some link ->
  startswith link (py "http") = true ->
  ContentProcessorFactory.create_processor w (py "link") kw
  = ([], Ok (PLink {| ProcessLink.link := link |})).
Proof.
  intros Hkw Hhttp. unfold ContentProcessorFactory.create_processor.
  rewrite !bool_decide_eq_false_2 by discriminate.
  rewrite bool_decide_eq_true_2 by reflexivity.
  unfold ProcessLink.__init__. rewrite Hkw. cbn [default from_option id].
  by rewrite Hhttp.
Qed.



(** ** The generator *)

(** The run of [_generate] on the completion the service answered. *)
Lemma generate_run (w : World) (self : FlashCardGenerator.t)
    (content model : pystr) (response : completion) :
  chat_create w (FlashCardGenerator.request self content model) = Ok response ->
  FlashCardGenerator._generate w self content model
  = ([EvChat (FlashCardGenerator.request self content model)],
     match rbind (first_content response) Json.loads with
     | Ok v => Ok v
     | Raise e => Raise (Exn ValueError (FlashCardGenerator.msg_failed_to_parse e))
     end).
Proof.
  intros Hchat. unfold FlashCardGenerator._generate. rewrite Hchat.
  unfold FlashCardGenerator.parse_response. cbn [bind call].
  destruct (first_content response) as [text|e]; [|reflexivity].
  cbn [bind pure rbind]. by destruct (Json.loads text).
Qed.

Lemma decodes_to_rbind (response : completion) (v : pyjson) :
  decodes_to response v <-> rbind (first_content response) Json.loads = Ok v.
Proof.
  unfold decodes_to, first_content. split.
  - intros (text & -> & Hv). exact Hv.
  - destruct (response !! 0) as [[text|]|] eqn:H0; cbn [rbind].
    + intros Hv. by exists text.
    + cbn. discriminate.
    + discriminate.
Qed.




(** The claim as the specification states it fails: the service may answer
    a set that announces three cards and carries none, and [_generate]
    returns it as it is. *)
Lemma generate_returns_decoded_counterexample :
  ~ (forall v,
       snd (FlashCardGenerator._generate (chat_world [Some three_announced])
              (FlashCardService.generator
                 (five_cards (chat_world [Some three_announced])))
              notes default_model) = Ok v ->
       exists cards,
         getfield v "cards" = Some (JList cards)
         /\ cards <> []
         /\ getfield v "total_cards"
            = Some (JInt (Z.of_nat (length cards)))).
Proof.
  intros H.
  destruct (H (JDict [(py "title", JStr (py "Algebra"));
                      (py "subject", JStr (py "Mathematics"));
                      (py "cards", JList []);
                      (py "total_cards", JInt 3);
                      (py "difficulty_level", JStr (py "Beginner"))]))
    as (cards & Hcards & Hne & _).
  - vm_compute. reflexivity.
  - vm_compute in Hcards. injection Hcards as <-. by apply Hne.
Qed.

(** C4, amended. When [_generate] succeeds, what it returns is the
    response of the service, decoded and otherwise untouched, and the one
    call to the service is all that happened: [cards] and [total_cards]
    are what the service sent, the list may be empty and the count may
    differ from its length, and nothing validates or flags it. *)
Theorem generate_returns_decoded (w : World) (self : FlashCardGenerator.t)
    (content model : pystr) (tr : list event) (v : pyjson) :
  FlashCardGenerator._generate w self content model = (tr, Ok v) ->
  tr = [EvChat (FlashCardGenerator.request self content model)]
  /\ exists response,
       chat_create w (FlashCardGenerator.request self content model)
       = Ok response
       /\ decodes_to response v.
Proof.
  destruct (chat_create w (FlashCardGenerator.request self content model))
    as [response|e] eqn:Hchat.
  - rewrite (generate_run _ _ _ _ _ Hchat).
    destruct (rbind (first_content response) Json.loads) as [v'|e] eqn:Hd;
      intros [= <- <-].
    split; [reflexivity|]. exists response. split; [reflexivity|].
    by apply decodes_to_rbind.
  - unfold FlashCardGenerator._generate. rewrite Hchat. discriminate.
Qed.

Lemma generate_returns_decoded_witness :
  exists response,
    chat_create (chat_world [Some three_announced])
      (FlashCardGenerator.request
         (FlashCardService.generator
            (five_cards (chat_world [Some three_announced])))
         notes default_model) = Ok response
    /\ exists v,
         decodes_to response v
         /\ getfield v "cards" = Some (JList [])
         /\ getfield v "total_cards" = Some (JInt 3).
Proof.
  destruct (generate_returns_decoded (chat_world [Some three_announced])
              (FlashCardService.generator
                 (five_cards (chat_world [Some three_announced])))
              notes default_model
              [EvChat (FlashCardGenerator.request
                         (FlashCardService.generator
                            (five_cards (chat_world [Some three_announced])))
                         notes default_model)]
              (JDict [(py "title", JStr (py "Algebra"));
                      (py "subject", JStr (py "Mathematics"));
                      (py "cards", JList []);
                      (py "total_cards", JInt 3);
                      (py "difficulty_level", JStr (py "Beginner"))]))
    as (_ & response & Hchat & Hv); [vm_compute; reflexivity|].
  exists response. split; [exact Hchat|].
  eexists. split; [exact Hv|]. split; reflexivity.
Defined.

(** * Further properties of the code *)

(** ** Text input with any bounds *)



(** ** PDF input *)

(** What the checks on the pages end with, by the number of pages. *)
Lemma check_pages_result (pages : list pystr) :
  snd (ProcessPDF.check_pages pages)
  = match pages with
    | [] => Raise (Exn UnboundLocalError ProcessPDF.msg_unbound_combined_text)
    | [page] =>
        if word_count page <? 10 then Raise (Exn ValueError msg_too_short)
        else Raise (Exn UnboundLocalError ProcessPDF.msg_unbound_combined_text)
    | _ =>
        Ok (if 4000 <? word_count (join [] pages)
            then join (py " ") (take 4000 (split (join [] pages)))
            else join [] pages)
    end.
Proof.
  destruct pages as [|p [|q pages]].
  - reflexivity.
  - destruct (Nat.ltb_spec (word_count p) 10).
    + by rewrite check_pages_single_short.
    + by rewrite check_pages_single_long.
  - by rewrite check_pages_multi by (cbn; lia).
Qed.

Lemma pdf_process_run (w : World) (self : ProcessPDF.t) (pages : list pystr) :
  pymupdf_open w (ProcessPDF.pdf_path self) = Ok pages ->
  snd (ProcessPDF._process w self) = snd (ProcessPDF.check_pages pages).
Proof.
  intros Hopen. unfold ProcessPDF._process. rewrite Hopen. unfold call.
  cbn [bind]. by destruct (ProcessPDF.check_pages pages).
Qed.

(** The text that passes the checks: the first 4000 words. *)
Lemma check_pages_words (pages : list pystr) (out : pystr) :
  snd (ProcessPDF.check_pages pages) = Ok out ->
  1 < length pages
  /\ split out = take 4000 (split (join [] pages))
  /\ word_count out <= 4000
  /\ (word_count (join [] pages) <= 4000 -> out = join [] pages).
Proof.
  rewrite check_pages_result.
  destruct pages as [|p [|q pages]]; [discriminate| |].
  { by destruct (word_count p <? 10). }
  set (text := join [] (p :: q :: pages)). unfold word_count.
  split; [cbn; lia|]. revert H.
  destruct (Nat.ltb_spec 4000 (length (split text))) as [Hlong|Hshort];
    intros [= <-].
  - assert (Hs : split (join (py " ") (take 4000 (split text)))
                 = take 4000 (split text))
      by apply split_join_words, Forall_take_words.
    rewrite Hs, length_take. split; [reflexivity|]. split; [lia|].
    intros Hle. lia.
  - rewrite take_ge by assumption. split; [reflexivity|].
    split; [assumption|reflexivity].
Qed.



(** X3. Whatever [ProcessPDF._process] returns has at most 4000 words:
    its words are the first 4000 words of the concatenated pages, and a
    concatenation of at most 4000 words is returned as it is, white space
    included. *)
Theorem pdf_words_are_prefix (w : World) (self : ProcessPDF.t)
    (pages : list pystr) (out : pystr) :
  pymupdf_open w (ProcessPDF.pdf_path self) = Ok pages ->
  snd (ProcessPDF._process w self) = Ok out ->
  split out = take 4000 (split (join [] pages))
  /\ word_count out <= 4000
  /\ (word_count (join [] pages) <= 4000 -> out = join [] pages).
Proof.
  intros Hopen Hout. rewrite (pdf_process_run _ _ _ Hopen) in Hout.
  by destruct (check_pages_words _ _ Hout) as (_ & H).
Qed.

Lemma pdf_words_are_prefix_witness :
  split (ten_words ++ ten_words)
  = take 4000 (split (join [] [ten_words; ten_words]))
  /\ word_count (ten_words ++ ten_words) <= 4000.
Proof.
  destruct (pdf_words_are_prefix (pdf_world [ten_words; ten_words]) notes_pdf
              [ten_words; ten_words] (ten_words ++ ten_words) eq_refl)
    as (H1 & H2 & _); [vm_compute; reflexivity|].
  split; assumption.
Defined.

(** ** Link input *)

(** The run of [ProcessLink._process] on the answer of the crawler. *)
Lemma link_process_run (w : World) (self : ProcessLink.t)
    (results : list CrawlResult) :
  crawler_arun_many w (ProcessLink.request self) = Ok results ->
  ProcessLink._process w self
  = (EvCrawl (ProcessLink.request self)
       :: match results with
          | res :: _ =>
              if success res then [] else [EvPrint (py "Error: " ++ error res)]
          | [] => []
          end,
     Ok (match results with
         | res :: _ => Some (if success res then [markdown res] else [])
         | [] => None
         end)).
Proof.
  intros Hcrawl. unfold ProcessLink._process. rewrite Hcrawl. run.
  destruct results as [|res rest]; [reflexivity|].
  by destruct (success res).
Qed.



(** Decides the tests of the factory on a given tag. *)
Ltac pick_tag :=
  unfold ContentProcessorFactory.create_processor;
  repeat first
    [ rewrite bool_decide_eq_true_2 by reflexivity
    | rewrite bool_decide_eq_false_2 by discriminate ].



(** ** The factory *)

(** X6. A text, a topic or a link that is missing or empty is given the
    default [""] by the factory and then fails the assertion of its
    constructor, as does a link that does not start with [http]: the
    error is an [AssertionError], not a [ValueError], and no collaborator
    is called. *)
Theorem create_processor_missing_argument (w : World) (kw : kwargs) :
  (default [] (kw_text kw) = [] ->
     ContentProcessorFactory.create_processor w (py "text") kw
     = ([], Raise (Exn AssertionError (py "Text input cannot be empty."))))
  /\ (default [] (kw_topic kw) = [] ->
        ContentProcessorFactory.create_processor w (py "topic") kw
        = ([], Raise (Exn AssertionError (py "Topic cannot be empty."))))
  /\ (startswith (default [] (kw_link kw)) (py "http") = false ->
        ContentProcessorFactory.create_processor w (py "link") kw
        = ([], Raise (Exn AssertionError (py "Link must start with http.")))).
Proof.
  split; [|split]; intros H; pick_tag.
  - unfold ProcessTextInput.__init__. by rewrite H.
  - unfold ProcessTopic.__init__. by rewrite H.
  - unfold ProcessLink.__init__. by rewrite H.
Qed.

Lemma create_processor_missing_argument_witness :
  ContentProcessorFactory.create_processor quiet_world (py "text") no_kwargs
  = ([], Raise (Exn AssertionError (py "Text input cannot be empty.")))
  /\ ContentProcessorFactory.create_processor quiet_world (py "topic") no_kwargs
     = ([], Raise (Exn AssertionError (py "Topic cannot be empty.")))
  /\ ContentProcessorFactory.create_processor quiet_world (py "link")
       (link_kwargs (py "ftp://example.org"))
     = ([], Raise (Exn AssertionError (py "Link must start with http."))).
Proof.
  destruct (create_processor_missing_argument quiet_world no_kwargs)
    as (Htext & Htopic & _).
  destruct (create_processor_missing_argument quiet_world
              (link_kwargs (py "ftp://example.org"))) as (_ & _ & Hlink).
  split; [apply Htext; reflexivity|].
  split; [apply Htopic; reflexivity | apply Hlink; reflexivity].
Defined.

(** X7. The constructors of the image, audio and PDF processors check
    the path before anything else: a path that does not exist, and then a
    path without one of the accepted endings ([.png] or [.jpeg]; [.mp3] or
    [.wav]; [.pdf]), raises an [AssertionError] with the message of the
    check, and no collaborator is called (the Whisper model is not
    loaded). *)
Theorem create_processor_checks_path (w : World) (kw : kwargs) :
  (os_path_exists w (default [] (kw_image_path kw)) = false ->
     ContentProcessorFactory.create_processor w (py "image") kw
     = ([], Raise (Exn AssertionError (py "Image path does not exist."))))
  /\ (os_path_exists w (default [] (kw_image_path kw)) = true ->
      endswith (default [] (kw_image_path kw)) (py ".png") = false ->
      endswith (default [] (kw_image_path kw)) (py ".jpeg") = false ->
        ContentProcessorFactory.create_processor w (py "image") kw
        = ([], Raise (Exn AssertionError
                        (py "Image path must be a .png, or .jpeg file."))))
  /\ (os_path_exists w (default [] (kw_audio_path kw)) = false ->
        ContentProcessorFactory.create_processor w (py "audio") kw
        = ([], Raise (Exn AssertionError (py "Audio path does not exist."))))
  /\ (os_path_exists w (default [] (kw_audio_path kw)) = true ->
      endswith (default [] (kw_audio_path kw)) (py ".mp3") = false ->
      endswith (default [] (kw_audio_path kw)) (py ".wav") = false ->
        ContentProcessorFactory.create_processor w (py "audio") kw
        = ([], Raise (Exn AssertionError
                        (py "Audio path must be a .mp3, or .wav file."))))
  /\ (os_path_exists w (default [] (kw_pdf_path kw)) = false ->
        ContentProcessorFactory.create_processor w (py "pdf") kw
        = ([], Raise (Exn AssertionError (py "PDF path does not exist."))))
  /\ (os_path_exists w (default [] (kw_pdf_path kw)) = true ->
      endswith (default [] (kw_pdf_path kw)) (py ".pdf") = false ->
        ContentProcessorFactory.create_processor w (py "pdf") kw
        = ([], Raise (Exn AssertionError (py "PDF path must be a .pdf file.")))).
Proof.
  repeat split; intros; pick_tag;
    unfold ProcessImageInput.__init__, ProcessAudioInput.__init__,
      ProcessPDF.__init__;
    repeat match goal with H : _ = _ |- _ => rewrite H; clear H end;
    reflexivity.
Qed.

Lemma create_processor_checks_path_witness :
  ContentProcessorFactory.create_processor (pdf_world []) (py "image")
    (image_kwargs (py "photo.jpg"))
  = ([], Raise (Exn AssertionError
                  (py "Image path must be a .png, or .jpeg file.")))
  /\ ContentProcessorFactory.create_processor quiet_world (py "pdf") pdf_kwargs
     = ([], Raise (Exn AssertionError (py "PDF path does not exist."))).
Proof.
  destruct (create_processor_checks_path (pdf_world [])
              (image_kwargs (py "photo.jpg"))) as (_ & Himage & _).
  destruct (create_processor_checks_path quiet_world pdf_kwargs)
    as (_ & _ & _ & _ & Hpdf & _).
  split; [apply Himage; reflexivity | apply Hpdf; reflexivity].
Defined.



(** The processor made, its tag and the calls of its constructor. *)
Lemma create_processor_tag (w : World) (input_type : pystr) (kw : kwargs)
    (tr : list event) (p : processor) :
  ContentProcessorFactory.create_processor w input_type kw = (tr, Ok p) ->
  processor_tag p = input_type
  /\ tr = (if bool_decide (input_type = py "audio")
           then [EvWhisperLoad (py "base")] else []).
Proof.
  unfold ContentProcessorFactory.create_processor,
    ProcessTextInput.__init__, ProcessImageInput.__init__,
    ProcessAudioInput.__init__, ProcessPDF.__init__, ProcessLink.__init__,
    ProcessTopic.__init__, ProcessUserBackground.__init__, py_assert.
  repeat case_bool_decide; subst;
    repeat case_match; cbn [bind ret raise call app];
    try discriminate; intros [= <- <-];
    (split; [reflexivity|]);
    rewrite ?bool_decide_eq_false_2 by discriminate;
    rewrite ?bool_decide_eq_true_2 by reflexivity; reflexivity.
Qed.

(** X9. A processor the factory returns is of the class of its tag, the
    tag is one of the seven input types, and making it called no
    collaborator, except that the audio processor loads the Whisper model
    [base] in its constructor. *)
Theorem create_processor_kind (w : World) (input_type : pystr) (kw : kwargs)
    (tr : list event) (p : processor) :
  ContentProcessorFactory.create_processor w input_type kw = (tr, Ok p) ->
  processor_tag p = input_type
  /\ input_type ∈ input_kinds
  /\ tr = (if bool_decide (input_type = py "audio")
           then [EvWhisperLoad (py "base")] else []).
Proof.
  intros Hmake. destruct (create_processor_tag _ _ _ _ _ Hmake) as [Htag Htr].
  split; [exact Htag|]. split; [|exact Htr].
  rewrite <- Htag. unfold input_kinds. destruct p; cbn; repeat constructor.
Qed.

Lemma create_processor_kind_witness :
  processor_tag (PAudio lecture) = py "audio"
  /\ py "audio" ∈ input_kinds
  /\ [EvWhisperLoad (py "base")] = [EvWhisperLoad (py "base")].
Proof.
  apply (create_processor_kind (audio_world ∅) (py "audio")
           (audio_kwargs (py "lecture.mp3")) [EvWhisperLoad (py "base")]
           (PAudio lecture)).
  vm_compute. reflexivity.
Defined.

(** ** What the dispatcher returns *)

(** The checks on the text a chat or vision completion carries. *)
Lemma completion_checks_bounds (response : result completion)
    (ev : event) (upper : bool) (tr : list event) (t : pystr) :
  (let! response := call ev response in
   let! text := pure (first_content response) in
   let! text := pure (split_receiver text) in
   if length (split text) <? 10 then raise (Exn ValueError msg_too_short)
   else if upper && (2000 <? length (split text))
        then raise (Exn ValueError msg_too_long)
        else ret text) = (tr, Ok t) ->
  10 <= word_count t /\ (upper = true -> word_count t <= 2000).
Proof.
  unfold word_count.
  destruct response as [[|[text|] rest]|e]; run; try discriminate.
  destruct (Nat.ltb_spec (length (split text)) 10); run; [discriminate|].
  destruct upper; cbn [andb].
  - destruct (Nat.ltb_spec 2000 (length (split text))); run; [discriminate|].
    intros [= <- <-]. split; [lia|intros; lia].
  - intros [= <- <-]. split; [lia|discriminate].
Qed.

(** A text that a processor returns lies within its bounds. *)
Lemma sync_process_within_bounds (w : World) (p : processor)
    (tr : list event) (t : pystr) :
  ContentProcessorFactory.sync_process w p = (tr, Ok t) ->
  within_bounds p t /\ forall l, p <> PLink l.
Proof.
  destruct p as [p|p|p|p|p|p|p]; cbn [ContentProcessorFactory.sync_process];
    intros Hrun; (split; [|discriminate]); cbn [within_bounds].
  - revert Hrun. unfold ProcessTextInput._process, word_count.
    destruct (Z.ltb_spec (Z.of_nat (length (split (ProcessTextInput.text p))))
                30); [discriminate|].
    destruct (Z.gtb_spec (Z.of_nat (length (split (ProcessTextInput.text p))))
                2000); [discriminate|].
    intros [= <- <-]. lia.
  - revert Hrun. unfold ProcessImageInput._process,
      ProcessImageInput.encode_image.
    destruct (file_read w (ProcessImageInput.image_path p)) as [data|e];
      run; [|discriminate].
    set (req := ProcessImageInput.request w (b64encode data)).
    intros Hrun.
    apply (completion_checks_bounds (vision_create w req) (EvVision req) false
             (tl tr) t).
    cbn [andb]. revert Hrun. unfold call. cbn [bind].
    destruct (vision_create w req) as [[|[text|] rest]|e]; run;
      try discriminate.
    destruct (length (split text) <? 10); run; [discriminate|].
    by intros [= <- <-].
  - revert Hrun. unfold ProcessAudioInput._process.
    destruct (whisper_transcribe w (ProcessAudioInput.audio_path p))
      as [transcript|e]; run; [|discriminate].
    unfold getitem.
    destruct (transcript !! "text") as [text|]; run; [|discriminate].
    unfold word_count.
    destruct (Nat.ltb_spec (length (split text)) 10); run; [discriminate|].
    destruct (transcript !! "language") as [language|]; run; [|discriminate].
    destruct (bool_decide (language = py "en")); cbn [negb]; run;
      [|discriminate].
    by intros [= <- <-].
  - revert Hrun. unfold ProcessPDF._process.
    destruct (pymupdf_open w (ProcessPDF.pdf_path p)) as [pages|e];
      run; [|discriminate].
    destruct (ProcessPDF.check_pages pages) as [tr' r] eqn:Hcheck.
    intros [= <- ->].
    apply (check_pages_words pages t). by rewrite Hcheck.
  - discriminate Hrun.
  - revert Hrun. unfold ProcessTopic._process. intros Hrun.
    destruct (completion_checks_bounds _ _ true _ _ Hrun) as [? H].
    split; [assumption|by apply H].
  - revert Hrun. unfold ProcessUserBackground._process. intros Hrun.
    destruct (completion_checks_bounds _ _ true _ _ Hrun) as [? H].
    split; [assumption|by apply H].
Qed.

(** X10. Whatever text the dispatcher returns lies within the bounds of
    its input type, whatever the collaborators answered: 30 to 2000 words
    for text, at least 10 for image and audio, 10 to 2000 for topic and
    user background, at most 4000 for a PDF. *)
Theorem process_content_within_bounds (w : World) (input_type : pystr)
    (kw : kwargs) (tr : list event) (t : pystr) :
  ContentProcessorFactory.process_content w input_type kw = (tr, Ok t) ->
  (input_type = py "text" -> 30 <= word_count t <= 2000)
  /\ (input_type = py "image" \/ input_type = py "audio" ->
        10 <= word_count t)
  /\ (input_type = py "topic" \/ input_type = py "user_bio" ->
        10 <= word_count t <= 2000)
  /\ (input_type = py "pdf" -> word_count t <= 4000).
Proof.
  unfold ContentProcessorFactory.process_content.
  destruct (ContentProcessorFactory.create_processor w input_type kw)
    as [tr0 [p|e]] eqn:Hmake; cbn [bind]; [|discriminate].
  destruct (create_processor_tag _ _ _ _ _ Hmake) as (Htag & _).
  case_bool_decide as Hlink.
  { intros _. subst input_type. rewrite Hlink.
    split; [|split; [|split]]; intros Hk; try destruct Hk as [Hk|Hk];
      discriminate Hk. }
  destruct (ContentProcessorFactory.sync_process w p) as [tr1 r] eqn:Hrun.
  intros [= <- ->].
  destruct (sync_process_within_bounds _ _ _ _ Hrun) as [Hin _].
  rewrite <- Htag.
  split; [|split; [|split]]; intros Hk; try destruct Hk as [Hk|Hk];
    destruct p; try discriminate Hk; cbn [within_bounds] in Hin; lia.
Qed.

Lemma process_content_within_bounds_witness :
  10 <= word_count ten_words.
Proof.
  destruct (process_content_within_bounds
              (audio_world (transcript_of ten_words (py "en"))) (py "audio")
              (audio_kwargs (py "lecture.mp3"))
              [EvWhisperLoad (py "base"); EvTranscribe (py "lecture.mp3")]
              ten_words) as (_ & H & _); [vm_compute; reflexivity|].
  apply H. by right.
Defined.

(** ** The facade *)

(** [_generate] calls the service and nothing else. *)
Lemma generate_trace (w : World) (self : FlashCardGenerator.t)
    (content model : pystr) :
  fst (FlashCardGenerator._generate w self content model)
  = [EvChat (FlashCardGenerator.request self content model)].
Proof.
  unfold FlashCardGenerator._generate, call. cbn [bind].
  destruct (chat_create w _) as [response|e]; [|reflexivity].
  unfold FlashCardGenerator.parse_response.
  destruct (first_content response) as [text|e]; run; [|reflexivity].
  by destruct (Json.loads text).
Qed.

(** The facade after an extraction that returned a text. *)
Lemma facade_run_content (w : World) (self : FlashCardService.t)
    (input_type : pystr) (kw : kwargs) (tr : list event) (content : pystr) :
  ContentProcessorFactory.process_content w input_type kw = (tr, Ok content) ->
  content <> [] ->
  FlashCardService.generate_from_input w self input_type kw
  = (tr ++ [EvChat (FlashCardGenerator.request
                      (FlashCardService.generator self) content
                      default_model)],
     snd (FlashCardGenerator._generate w (FlashCardService.generator self)
            content default_model)).
Proof.
  intros Hrun Hne. unfold FlashCardService.generate_from_input.
  rewrite Hrun. cbn [bind].
  destruct content as [|c content]; [done|]. cbn [truthy negb].
  rewrite <- (generate_trace w (FlashCardService.generator self)
                (c :: content) default_model).
  by destruct (FlashCardGenerator._generate w
                 (FlashCardService.generator self) (c :: content)
                 default_model).
Qed.

(** X11. The facade sends the generation request at most once, after
    the extraction and only when the extraction returned a text that is
    not empty: no call of the extraction is a generation call, an error of
    the extraction is passed on unchanged without any further call, and
    for a non-empty text the run ends with the one request of [_generate]
    on that text and with its result. *)
Theorem facade_generates_once (w : World) (self : FlashCardService.t)
    (input_type : pystr) (kw : kwargs) (tr : list event)
    (r : result pystr) :
  ContentProcessorFactory.process_content w input_type kw = (tr, r) ->
  Forall (fun ev => ~ generation_call ev) tr
  /\ (forall e, r = Raise e ->
        FlashCardService.generate_from_input w self input_type kw
        = (tr, Raise e))
  /\ (forall content, r = Ok content -> content <> [] ->
        FlashCardService.generate_from_input w self input_type kw
        = (tr ++ [EvChat (FlashCardGenerator.request
                            (FlashCardService.generator self) content
                            default_model)],
           snd (FlashCardGenerator._generate w
                  (FlashCardService.generator self) content default_model))).
Proof.
  intros Hrun. split; [|split].
  - pose proof (silent_process_content w input_type kw) as H.
    unfold silent in H. by rewrite Hrun in H.
  - intros e ->. unfold FlashCardService.generate_from_input.
    by rewrite Hrun.
  - intros content -> Hne. by apply facade_run_content.
Qed.

Lemma facade_generates_once_witness :
  FlashCardService.generate_from_input (crawl_chat_world [Some (py "{}")])
    (five_cards (crawl_chat_world [Some (py "{}")])) (py "link")
    (link_kwargs (py "http://example.org"))
  = ([EvCrawl (ProcessLink.request
                 {| ProcessLink.link := py "http://example.org" |});
      EvChat (FlashCardGenerator.request
                (FlashCardService.generator
                   (five_cards (crawl_chat_world [Some (py "{}")])))
                (py "# Groups") default_model)],
     Ok (JDict [])).
Proof.
  destruct (facade_generates_once (crawl_chat_world [Some (py "{}")])
              (five_cards (crawl_chat_world [Some (py "{}")])) (py "link")
              (link_kwargs (py "http://example.org"))
              [EvCrawl (ProcessLink.request
                          {| ProcessLink.link := py "http://example.org" |})]
              (Ok (py "# Groups"))) as (_ & _ & H); [vm_compute; reflexivity|].
  rewrite (H (py "# Groups") eq_refl); [|discriminate].
  vm_compute. reflexivity.
Defined.

(** The dispatcher on a text: the constructor, then the two checks. *)
Lemma text_content_run (w : World) (kw : kwargs) (text : pystr) :
  kw_text kw = Some text ->
  text <> [] ->
  ContentProcessorFactory.process_content w (py "text") kw
  = ([], if word_count text <? 30 then Raise (Exn ValueError msg_too_short)
         else if 2000 <? word_count text
              then Raise (Exn ValueError msg_too_long)
              else Ok text).
Proof.
  intros Hkw Hne. unfold ContentProcessorFactory.process_content. pick_tag.
  rewrite Hkw. cbn [default from_option id].
  unfold ProcessTextInput.__init__.
  destruct text as [|c text]; [done|]. cbn [truthy py_assert bind ret app].
  cbn [ContentProcessorFactory.sync_process].
  unfold ProcessTextInput._process, word_count.
  cbn [ProcessTextInput.text].
  set (n := length (split (c :: text))).
  destruct (Z.ltb_spec (Z.of_nat n) 30), (Nat.ltb_spec n 30); try lia;
    [reflexivity|].
  by destruct (Z.gtb_spec (Z.of_nat n) 2000), (Nat.ltb_spec 2000 n); try lia.
Qed.

(** X12. A text of 30 to 2000 words goes through the whole service: the
    facade makes one call, the generation request that carries the text
    itself, and returns what the response of the service decodes to. *)
Theorem facade_text_success (w : World) (self : FlashCardService.t)
    (kw : kwargs) (text : pystr) (response : completion) (v : pyjson) :
  kw_text kw = Some text ->
  30 <= word_count text <= 2000 ->
  chat_create w (FlashCardGenerator.request (FlashCardService.generator self)
                   text default_model) = Ok response ->
  decodes_to response v ->
  FlashCardService.generate_from_input w self (py "text") kw
  = ([EvChat (FlashCardGenerator.request (FlashCardService.generator self)
                text default_model)], Ok v).
Proof.
  intros Hkw Hwc Hchat Hv.
  assert (Hne : text <> []).
  { intros ->. vm_compute in Hwc. lia. }
  assert (Hrun : ContentProcessorFactory.process_content w (py "text") kw
                 = ([], Ok text)).
  { rewrite (text_content_run _ _ _ Hkw Hne).
    destruct (Nat.ltb_spec (word_count text) 30); [lia|].
    by destruct (Nat.ltb_spec 2000 (word_count text)); [lia|]. }
  rewrite (facade_run_content _ _ _ _ _ _ Hrun Hne).
  rewrite (generate_run _ _ _ _ _ Hchat). cbn [snd app].
  apply decodes_to_rbind in Hv. by rewrite Hv.
Qed.

Lemma facade_text_success_witness :
  FlashCardService.generate_from_input (chat_world [Some (py "{}")])
    (five_cards (chat_world [Some (py "{}")])) (py "text") (text_kwargs notes)
  = ([EvChat (FlashCardGenerator.request
                (FlashCardService.generator
                   (five_cards (chat_world [Some (py "{}")])))
                notes default_model)], Ok (JDict [])).
Proof.
  apply (facade_text_success (chat_world [Some (py "{}")])
           (five_cards (chat_world [Some (py "{}")])) (text_kwargs notes)
           notes [Some (py "{}")] (JDict [])).
  - reflexivity.
  - vm_compute. lia.
  - reflexivity.
  - exists (py "{}"). split; reflexivity.
Defined.

(** X13. A text outside the bounds stops the facade before any call to a
    collaborator: a missing or empty text fails the assertion of the
    constructor, fewer than 30 words raise the too-short error and more
    than 2000 the too-long error, each with an empty trace. *)
Theorem facade_text_rejected (w : World) (self : FlashCardService.t)
    (kw : kwargs) :
  (default [] (kw_text kw) = [] ->
     FlashCardService.generate_from_input w self (py "text") kw
     = ([], Raise (Exn AssertionError (py "Text input cannot be empty."))))
  /\ (forall text, kw_text kw = Some text -> text <> [] ->
        word_count text < 30 ->
        FlashCardService.generate_from_input w self (py "text") kw
        = ([], Raise (Exn ValueError msg_too_short)))
  /\ (forall text, kw_text kw = Some text -> 2000 < word_count text ->
        FlashCardService.generate_from_input w self (py "text") kw
        = ([], Raise (Exn ValueError msg_too_long))).
Proof.
  unfold FlashCardService.generate_from_input.
  split; [|split].
  - intros Hempty. unfold ContentProcessorFactory.process_content. pick_tag.
    unfold ProcessTextInput.__init__. by rewrite Hempty.
  - intros text Hkw Hne Hshort. rewrite (text_content_run _ _ _ Hkw Hne).
    by destruct (Nat.ltb_spec (word_count text) 30); [|lia].
  - intros text Hkw Hlong.
    assert (Hne : text <> []). { intros ->. vm_compute in Hlong. lia. }
    rewrite (text_content_run _ _ _ Hkw Hne).
    destruct (Nat.ltb_spec (word_count text) 30); [lia|].
    by destruct (Nat.ltb_spec 2000 (word_count text)); [|lia].
Qed.

Lemma facade_text_rejected_witness :
  FlashCardService.generate_from_input quiet_world (five_cards quiet_world)
    (py "text") no_kwargs
  = ([], Raise (Exn AssertionError (py "Text input cannot be empty.")))
  /\ FlashCardService.generate_from_input quiet_world (five_cards quiet_world)
       (py "text") (text_kwargs (py "too short"))
     = ([], Raise (Exn ValueError msg_too_short))
  /\ FlashCardService.generate_from_input quiet_world (five_cards quiet_world)
       (py "text") (text_kwargs (words_of "w" 2001))
     = ([], Raise (Exn ValueError msg_too_long)).
Proof.
  destruct (facade_text_rejected quiet_world (five_cards quiet_world)
              no_kwargs) as (Hempty & _).
  destruct (facade_text_rejected quiet_world (five_cards quiet_world)
              (text_kwargs (py "too short"))) as (_ & Hshort & _).
  destruct (facade_text_rejected quiet_world (five_cards quiet_world)
              (text_kwargs (words_of "w" 2001))) as (_ & _ & Hlong).
  split; [apply Hempty; reflexivity|]. split.
  - apply (Hshort (py "too short")); [reflexivity|discriminate|].
    vm_compute. lia.
  - apply (Hlong (words_of "w" 2001)); [reflexivity|]. vm_compute. lia.
Defined.

(** ** Errors of the generator *)

(** What [json.loads] fails with: a [TypeError] on [None], a
    [JSONDecodeError] on a text. *)
Lemma loads_error_class (s : option pystr) (e : exn) :
  Json.loads s = Raise e ->
  exn_class e = match s with Some _ => JSONDecodeError | None => TypeError end.
Proof.
  intros Hloads. pose proof (loads_never_too_deep s e Hloads) as Hdeep.
  revert Hloads Hdeep.
  destruct s as [s|]; cbn [Json.loads]; [|by intros [= <-] _].
  destruct (startswith s [65279%N]); [by intros [= <-] _|].
  unfold Json.decode.
  destruct (Json.skip_ws 0 s) as [i r].
  destruct (Json.scan_once (2 * length s + 2) i r)
    as [[[obj i1] r1]|[msg pos|]].
  - destruct (Json.skip_ws i1 r1) as [i2 [|x r2]]; [discriminate|].
    by intros [= <-] _.
  - by intros [= <-] _.
  - intros [= <-] Hdeep. by destruct Hdeep.
Qed.



(** ** Answers without text *)

(** X15. When the completion of the service has no choice, the image,
    topic and user-background processors end in [IndexError]; when its
    first choice has no text, in the [AttributeError] of calling [split]
    on [None]. Neither is the [ValueError] of the length checks. *)
Theorem completion_without_text (w : World) :
  (forall self model data response,
     file_read w (ProcessImageInput.image_path self) = Ok data ->
     vision_create w (ProcessImageInput.request w (b64encode data))
     = Ok response ->
     (response = [] ->
        exists msg, snd (ProcessImageInput._process w self model)
                    = Raise (Exn IndexError msg))
     /\ (response !! 0 = Some None ->
           exists msg, snd (ProcessImageInput._process w self model)
                       = Raise (Exn AttributeError msg)))
  /\ (forall self model response,
        chat_create w (ProcessTopic.request self model) = Ok response ->
        (response = [] ->
           exists msg, snd (ProcessTopic._process w self model)
                       = Raise (Exn IndexError msg))
        /\ (response !! 0 = Some None ->
              exists msg, snd (ProcessTopic._process w self model)
                          = Raise (Exn AttributeError msg)))
  /\ (forall self model response,
        chat_create w (ProcessUserBackground.request w self model)
        = Ok response ->
        (response = [] ->
           exists msg, snd (ProcessUserBackground._process w self model)
                       = Raise (Exn IndexError msg))
        /\ (response !! 0 = Some None ->
              exists msg, snd (ProcessUserBackground._process w self model)
                          = Raise (Exn AttributeError msg))).
Proof.
  split; [|split].
  - intros self model data response Hread Hseen.
    unfold ProcessImageInput._process, ProcessImageInput.encode_image.
    rewrite Hread. run. rewrite Hseen.
    split; [intros ->; run; eauto|].
    destruct response as [|[text|] rest]; intros [=]. run. eauto.
  - intros self model response Hchat. unfold ProcessTopic._process.
    rewrite Hchat.
    split; [intros ->; run; eauto|].
    destruct response as [|[text|] rest]; intros [=]. run. eauto.
  - intros self model response Hchat. unfold ProcessUserBackground._process.
    rewrite Hchat.
    split; [intros ->; run; eauto|].
    destruct response as [|[text|] rest]; intros [=]. run. eauto.
Qed.

Lemma completion_without_text_witness :
  (exists msg,
     snd (ProcessTopic._process (chat_world []) (algebra (chat_world []))
            default_model) = Raise (Exn IndexError msg))
  /\ (exists msg,
        snd (ProcessImageInput._process (vision_world [None]) scan_png
               (py "gpt-4o-mini")) = Raise (Exn AttributeError msg)).
Proof.
  destruct (completion_without_text (chat_world [])) as (_ & Htopic & _).
  destruct (completion_without_text (vision_world [None])) as (Himage & _).
  split.
  - apply (Htopic (algebra (chat_world [])) default_model []); reflexivity.
  - apply (Himage scan_png (py "gpt-4o-mini") [137; 80; 78; 71]%N [None]);
      reflexivity.
Defined.

(** ** Audio: transcripts without a key *)

(** X16. A transcript without the key [text] ends in [KeyError] before
    any check; a transcript with a text of at least ten words and without
    the key [language] ends in [KeyError] after the length check. *)
Theorem audio_missing_keys (w : World) (self : ProcessAudioInput.t)
    (transcript : gmap string pystr) :
  whisper_transcribe w (ProcessAudioInput.audio_path self) = Ok transcript ->
  (transcript !! "text" = None ->
     ProcessAudioInput._process w self
     = ([EvTranscribe (ProcessAudioInput.audio_path self)],
        Raise (Exn KeyError (py "'text'"))))
  /\ (forall text, transcript !! "text" = Some text ->
        10 <= word_count text ->
        transcript !! "language" = None ->
        ProcessAudioInput._process w self
        = ([EvTranscribe (ProcessAudioInput.audio_path self)],
           Raise (Exn KeyError (py "'language'")))).
Proof.
  intros Hrun. split.
  - intros Hnone. unfold ProcessAudioInput._process. rewrite Hrun.
    unfold getitem. run. by rewrite Hnone.
  - intros text Htext Hlong Hnone.
    rewrite (audio_process_run w self transcript text (conj Hrun Htext)).
    rewrite Hnone. by destruct (Nat.ltb_spec (word_count text) 10); [lia|].
Qed.

Lemma audio_missing_keys_witness :
  ProcessAudioInput._process (audio_world ∅) lecture
  = ([EvTranscribe (py "lecture.mp3")], Raise (Exn KeyError (py "'text'")))
  /\ ProcessAudioInput._process (audio_world (<["text" := ten_words]> ∅))
       lecture
     = ([EvTranscribe (py "lecture.mp3")],
        Raise (Exn KeyError (py "'language'"))).
Proof.
  destruct (audio_missing_keys (audio_world ∅) lecture ∅ eq_refl)
    as [Htext _].
  destruct (audio_missing_keys (audio_world (<["text" := ten_words]> ∅))
              lecture (<["text" := ten_words]> ∅) eq_refl) as [_ Hlang].
  split; [apply Htext; reflexivity|].
  apply (Hlang ten_words); [reflexivity | vm_compute; lia | reflexivity].
Defined.

(** ** The image processor *)

(** X17. An image processor that its constructor returns always has its
    extension set: the path exists, it is kept, and the extension is
    [png] for a path that ends in [.png] and [jpeg] for one that ends in
    [.jpeg]; the constructor calls no collaborator. *)
Theorem image_init_sets_extension (w : World) (image_path : pystr)
    (tr : list event) (self : ProcessImageInput.t) :
  ProcessImageInput.__init__ w image_path = (tr, Ok self) ->
  tr = []
  /\ ProcessImageInput.image_path self = image_path
  /\ os_path_exists w image_path = true
  /\ (endswith image_path (py ".png") = true
      /\ ProcessImageInput.extension self = Some (py "png")
      \/ endswith image_path (py ".png") = false
         /\ endswith image_path (py ".jpeg") = true
         /\ ProcessImageInput.extension self = Some (py "jpeg")).
Proof.
  unfold ProcessImageInput.__init__, py_assert.
  destruct (os_path_exists w image_path); run; [|discriminate].
  destruct (endswith image_path (py ".png")); cbn [orb]; run.
  - intros [= <- <-]. repeat split. by left.
  - destruct (endswith image_path (py ".jpeg")); run; [|discriminate].
    intros [= <- <-]. repeat split. by right.
Qed.

Lemma image_init_sets_extension_witness :
  [] = @nil event
  /\ ProcessImageInput.image_path scan_png = py "scan.png"
  /\ os_path_exists (vision_world []) (py "scan.png") = true
  /\ (endswith (py "scan.png") (py ".png") = true
      /\ ProcessImageInput.extension scan_png = Some (py "png")
      \/ endswith (py "scan.png") (py ".png") = false
         /\ endswith (py "scan.png") (py ".jpeg") = true
         /\ ProcessImageInput.extension scan_png = Some (py "jpeg")).
Proof.
  apply (image_init_sets_extension (vision_world []) (py "scan.png") []
           scan_png).
  vm_compute. reflexivity.
Defined.

(** ** The application: subjects *)

Lemma split_on_length (sep : N) (s : pystr) : forall cur,
  length (app.split_on sep cur s)
  = S (length (List.filter (N.eqb sep) s)).
Proof.
  induction s as [|c s IH]; intros cur; cbn [app.split_on List.filter];
    [reflexivity|].
  rewrite (N.eqb_sym sep c).
  destruct (c =? sep)%N; cbn [length]; by rewrite IH.
Qed.

Lemma split_on_free (sep : N) (s : pystr) : forall cur,
  sep ∉ cur -> Forall (fun piece => sep ∉ piece) (app.split_on sep cur s).
Proof.
  induction s as [|c s IH]; intros cur Hcur; cbn [app.split_on].
  - constructor; [|constructor]. by rewrite list_elem_of_In, <- in_rev, <- list_elem_of_In.
  - destruct (N.eqb_spec c sep) as [->|Hne].
    + constructor; [by rewrite list_elem_of_In, <- in_rev, <- list_elem_of_In|].
      apply IH, not_elem_of_nil.
    + apply IH. rewrite not_elem_of_cons. split; [congruence|assumption].
Qed.

Lemma lstrip_suffix (s : pystr) : exists spaces, s = spaces ++ app.lstrip s.
Proof.
  induction s as [|c s [spaces IH]]; [by exists []|]. cbn [app.lstrip].
  destruct (is_space c); [|by exists []].
  exists (c :: spaces). cbn. by rewrite <- IH.
Qed.

(** A text without white space at its head. *)
Lemma lstrip_head (s : pystr) :
  match app.lstrip s with
  | c :: _ => is_space c = false
  | [] => True
  end.
Proof.
  induction s as [|c s IH]; [exact I|]. cbn [app.lstrip].
  by destruct (is_space c) eqn:Hc.
Qed.

Lemma lstrip_id (s : pystr) :
  match s with c :: _ => is_space c = false | [] => True end ->
  app.lstrip s = s.
Proof. destruct s as [|c s]; [done|]. cbn. by intros ->. Qed.

Lemma strip_stripped (s : pystr) : stripped (app.strip s).
Proof.
  unfold stripped, app.strip.
  split.
  - apply lstrip_id.
    pose proof (lstrip_head s) as Hhead.
    destruct (lstrip_suffix (rev (app.lstrip s))) as [spaces Hrev].
    apply (f_equal (@rev N)) in Hrev.
    rewrite rev_involutive, rev_app_distr in Hrev.
    destruct (rev (app.lstrip (rev (app.lstrip s)))) as [|c x]; [exact I|].
    rewrite Hrev in Hhead. exact Hhead.
  - rewrite rev_involutive. apply lstrip_id, lstrip_head.
Qed.

Lemma strip_free (sep : N) (s : pystr) : sep ∉ s -> sep ∉ app.strip s.
Proof.
  intros Hs Hin. apply Hs. unfold app.strip in Hin.
  rewrite list_elem_of_In, <- in_rev, <- list_elem_of_In in Hin.
  destruct (lstrip_suffix (rev (app.lstrip s))) as [spaces Hrev].
  assert (sep ∈ rev (app.lstrip s)) as Hin'.
  { rewrite Hrev. apply elem_of_app. by right. }
  rewrite list_elem_of_In, <- in_rev, <- list_elem_of_In in Hin'.
  destruct (lstrip_suffix s) as [spaces' Hs'].
  rewrite Hs'. apply elem_of_app. by right.
Qed.

(** X18. The subjects read by [get_user_bio]: one more than the commas
    of the answer, so never none (an empty answer gives one empty
    subject); each one without white space at either end and without a
    comma. *)
Theorem subjects_of_answer (interested_subjects_input : pystr) :
  length (app.interested_subjects interested_subjects_input)
  = S (length (List.filter (N.eqb 44) interested_subjects_input))
  /\ Forall (fun subj => stripped subj /\ 44%N ∉ subj)
       (app.interested_subjects interested_subjects_input).
Proof.
  unfold app.interested_subjects. split.
  - by rewrite length_fmap, split_on_length.
  - apply Forall_fmap.
    eapply Forall_impl; [apply split_on_free, not_elem_of_nil|].
    intros piece Hfree. cbn. split; [apply strip_stripped|by apply strip_free].
Qed.

(** ** The application: showing the cards *)

Lemma ui_bind_ok {A B} (tr : list app.ui_event) (a : A) (k : A -> app.UI B) :
  app.ui_bind (tr, Ok a) k = (tr ++ fst (k a), snd (k a)).
Proof. unfold app.ui_bind. by destruct (k a). Qed.

Lemma ui_bind_pure {A B} (a : A) (k : A -> app.UI B) :
  app.ui_bind ([], Ok a) k = k a.
Proof. unfold app.ui_bind. by destruct (k a). Qed.

Lemma panels_app (tr tr' : list app.ui_event) :
  panels (tr ++ tr') = panels tr + panels tr'.
Proof. unfold panels. by rewrite List.filter_app, length_app. Qed.

Lemma questions_app (tr tr' : list app.ui_event) :
  questions (tr ++ tr') = questions tr + questions tr'.
Proof. unfold questions. by rewrite List.filter_app, length_app. Qed.

(** The fields of a card that has the shape of [FlashCard]. *)
Lemma conforms_card (card : pyjson) :
  conforms FlashCardGenerator.FlashCard card = true ->
  exists c question answer category importance,
    card = JDict c
    /\ dict_get c (py "question") = Some question
    /\ dict_get c (py "answer") = Some answer
    /\ dict_get c (py "category") = Some category
    /\ dict_get c (py "importance") = Some (JInt importance).
Proof.
  destruct card as [| | | | | |c]; try discriminate.
  cbn [conforms FlashCardGenerator.FlashCard]. intros H.
  apply andb_true_iff in H as [Hq H].
  apply andb_true_iff in H as [Ha H].
  apply andb_true_iff in H as [Hc H].
  apply andb_true_iff in H as [Hi _].
  destruct (dict_get c (py "question")) as [question|] eqn:Eq;
    [|discriminate].
  destruct (dict_get c (py "answer")) as [answer|] eqn:Ea; [|discriminate].
  destruct (dict_get c (py "category")) as [category|] eqn:Ec;
    [|discriminate].
  destruct (dict_get c (py "importance")) as [[| |importance| | | |]|] eqn:Ei;
    try discriminate.
  by exists c, question, answer, category, importance.
Qed.

(** One turn of the loop on a well-shaped card: its panel, then the
    question if the card is not the last, then the rest if the answer
    is yes. *)
Lemma show_cards_step (flash_cards : list (pystr * pyjson)) (count : nat)
    (answers : nat -> bool) (i : nat) (card : pyjson) (rest : list pyjson)
    (total : pyjson) :
  dict_get flash_cards (py "total_cards") = Some total ->
  conforms FlashCardGenerator.FlashCard card = true ->
  exists panel question,
    is_panel panel = true /\ is_question panel = false
    /\ is_question question = true /\ is_panel question = false
    /\ app.show_cards flash_cards count answers i (card :: rest)
       = let next := app.show_cards flash_cards count answers (S i) rest in
         if i <? count then
           if answers i then (panel :: question :: fst next, snd next)
           else ([panel; question], Ok tt)
         else (panel :: fst next, snd next).
Proof.
  intros Htotal Hcard.
  destruct (conforms_card card Hcard)
    as (c & question & answer & category & importance
        & -> & Hq & Ha & Hc & Hi).
  cbn [app.show_cards app.subscript].
  unfold app.dict_getitem. rewrite Hq, Ha, Hc, Hi, Htotal.
  unfold app.ui_pure.
  repeat (rewrite ui_bind_pure; cbn beta; cbn [app.stars app.as_int]).
  rewrite ui_bind_ok.
  eexists _, (app.Confirm (py "[cyan]View next card?[/cyan]")).
  split; [|split; [|split; [|split]]]; cycle 4.
  - cbv zeta. destruct (i <? count).
    + rewrite ui_bind_ok. destruct (answers i); reflexivity.
    + reflexivity.
  - reflexivity.
  - reflexivity.
  - reflexivity.
  - reflexivity.
Qed.

(** How far the loop gets on well-shaped cards, card [i] at the head and
    [count] the number of the last one. *)
Lemma show_cards_shape (flash_cards : list (pystr * pyjson)) (count : nat)
    (answers : nat -> bool) (total : pyjson) :
  dict_get flash_cards (py "total_cards") = Some total ->
  forall cards i,
    forallb (conforms FlashCardGenerator.FlashCard) cards = true ->
    i + length cards = S count ->
    snd (app.show_cards flash_cards count answers i cards) = Ok tt
    /\ panels (fst (app.show_cards flash_cards count answers i cards))
       <= length cards
    /\ (cards <> [] ->
        1 <= panels (fst (app.show_cards flash_cards count answers i cards)))
    /\ questions (fst (app.show_cards flash_cards count answers i cards))
       <= panels (fst (app.show_cards flash_cards count answers i cards))
    /\ questions (fst (app.show_cards flash_cards count answers i cards))
       <= length cards - 1
    /\ ((forall j, i <= j -> j < count -> answers j = true) ->
        panels (fst (app.show_cards flash_cards count answers i cards))
        = length cards
        /\ questions (fst (app.show_cards flash_cards count answers i cards))
           = length cards - 1)
    /\ (forall k, i <= k -> k < count -> answers k = false ->
        (forall j, i <= j -> j < k -> answers j = true) ->
        panels (fst (app.show_cards flash_cards count answers i cards))
        = S k - i
        /\ questions (fst (app.show_cards flash_cards count answers i cards))
           = S k - i).
Proof.
  intros Htotal cards.
  induction cards as [|card rest IH]; intros i Hcards Hlen.
  - cbn [length] in Hlen. cbn [app.show_cards fst snd length].
    unfold panels, questions. cbn [List.filter length].
    split; [done|]. split; [lia|]. split; [done|]. split; [lia|].
    split; [lia|]. split; [done|]. intros k Hik Hk. lia.
  - cbn [forallb] in Hcards. apply andb_true_iff in Hcards as [Hcard Hrest].
    cbn [length] in Hlen |- *.
    destruct (show_cards_step flash_cards count answers i card rest total
                Htotal Hcard)
      as (panel & question & Hp & Hpq & Hq & Hqp & ->).
    specialize (IH (S i) Hrest ltac:(lia))
      as (IHok & IHp & _ & IHqp & IHq & IHall & IHno).
    cbv zeta.
    assert (forall tr, panels (panel :: tr) = S (panels tr)) as Hpanel.
    { intros tr. unfold panels. cbn [List.filter]. by rewrite Hp. }
    assert (forall tr, questions (panel :: tr) = questions tr) as Hpanel'.
    { intros tr. unfold questions. cbn [List.filter]. by rewrite Hpq. }
    assert (forall tr, panels (question :: tr) = panels tr) as Hquestion.
    { intros tr. unfold panels. cbn [List.filter]. by rewrite Hqp. }
    assert (forall tr, questions (question :: tr) = S (questions tr))
      as Hquestion'.
    { intros tr. unfold questions. cbn [List.filter]. by rewrite Hq. }
    assert (panels [] = 0 /\ questions [] = 0) as [Hp0 Hq0] by done.
    destruct (Nat.ltb_spec i count) as [Hi|Hi].
    + destruct rest as [|card' rest']; [cbn [length] in Hlen; lia|].
      cbn [length] in *.
      destruct (answers i) eqn:Hanswer; cbn [fst snd];
        rewrite ?Hpanel, ?Hpanel', ?Hquestion, ?Hquestion', ?Hp0, ?Hq0.
      * split; [done|]. split; [lia|]. split; [lia|]. split; [lia|].
        split; [lia|]. split.
        -- intros Hall. destruct IHall as [-> ->]; [|lia].
           intros j Hj. apply Hall. lia.
        -- intros k Hik Hk Hno Hyes.
           destruct (decide (k = i)) as [->|Hne]; [congruence|].
           destruct (IHno k) as [-> ->]; [lia|done|done| |lia].
           intros j Hj. apply Hyes. lia.
      * split; [done|]. split; [lia|]. split; [lia|]. split; [lia|].
        split; [lia|]. split.
        -- intros Hall. rewrite Hall in Hanswer; [done|lia|done].
        -- intros k Hik Hk Hno Hyes.
           destruct (decide (k = i)) as [->|Hne]; [lia|].
           rewrite Hyes in Hanswer; [done|lia|lia].
    + destruct rest as [|card' rest']; [|cbn [length] in Hlen; lia].
      cbn [app.show_cards fst snd length].
      rewrite ?Hpanel, ?Hpanel', ?Hp0, ?Hq0.
      split; [done|]. split; [lia|]. split; [lia|]. split; [lia|].
      split; [lia|]. split; [done|]. intros k Hik Hk. lia.
Qed.

(** The head of the display on a set whose five keys are there: four
    lines, then the loop. *)
Lemma display_head (flash_cards : list (pystr * pyjson))
    (answers : nat -> bool) (title subject difficulty_level total cards : pyjson)
    (items : list pyjson) :
  flash_cards <> [] ->
  dict_get flash_cards (py "title") = Some title ->
  dict_get flash_cards (py "subject") = Some subject ->
  dict_get flash_cards (py "difficulty_level") = Some difficulty_level ->
  dict_get flash_cards (py "total_cards") = Some total ->
  dict_get flash_cards (py "cards") = Some cards ->
  app.iterate cards = Ok items ->
  exists lines,
    length lines = 4 /\ panels lines = 0 /\ questions lines = 0
    /\ app.display_flash_cards flash_cards answers
       = (lines
          ++ fst (app.show_cards flash_cards (length items) answers 1 items),
          snd (app.show_cards flash_cards (length items) answers 1 items)).
Proof.
  intros Hne Ht Hs Hd Hn Hc Hitems.
  unfold app.display_flash_cards.
  destruct flash_cards as [|kv flash_cards]; [done|].
  unfold app.dict_getitem. rewrite Ht, Hs, Hd, Hn, Hc.
  unfold app.ui_pure, app.console_print.
  repeat (first [rewrite ui_bind_pure | rewrite ui_bind_ok];
          cbn beta; rewrite ?Hitems).
  cbn [fst snd app].
  eexists [_; _; _; _]. by repeat split.
Qed.

(** The head and the loop on a set that has the shape of
    [FlashCardSet]. *)
Lemma display_conforming (flash_cards : list (pystr * pyjson))
    (answers : nat -> bool) (cards : list pyjson) :
  conforms FlashCardGenerator.FlashCardSet (JDict flash_cards) = true ->
  dict_get flash_cards (py "cards") = Some (JList cards) ->
  exists lines total,
    dict_get flash_cards (py "total_cards") = Some total
    /\ forallb (conforms FlashCardGenerator.FlashCard) cards = true
    /\ length lines = 4 /\ panels lines = 0 /\ questions lines = 0
    /\ app.display_flash_cards flash_cards answers
       = (lines
          ++ fst (app.show_cards flash_cards (length cards) answers 1 cards),
          snd (app.show_cards flash_cards (length cards) answers 1 cards)).
Proof.
  cbn [conforms FlashCardGenerator.FlashCardSet]. intros H Hcards.
  apply andb_true_iff in H as [Ht H].
  apply andb_true_iff in H as [Hs H].
  apply andb_true_iff in H as [Hc H].
  apply andb_true_iff in H as [Hn H].
  apply andb_true_iff in H as [Hd _].
  rewrite Hcards in Hc.
  destruct (dict_get flash_cards (py "title")) as [title|] eqn:Et;
    [|discriminate].
  destruct (dict_get flash_cards (py "subject")) as [subject|] eqn:Es;
    [|discriminate].
  destruct (dict_get flash_cards (py "total_cards")) as [total|] eqn:En;
    [|discriminate].
  destruct (dict_get flash_cards (py "difficulty_level"))
    as [difficulty_level|] eqn:Ed; [|discriminate].
  assert (flash_cards <> []) as Hne by (by intros ->).
  destruct (display_head flash_cards answers title subject difficulty_level
              total (JList cards) cards Hne Et Es Ed En Hcards eq_refl)
    as (lines & Hlines & Hp & Hq & Hrun).
  by exists lines, total.
Qed.






